(** * Mentorat-Leadership: the state layer of [src/App.tsx]

    A shallow embedding of the state held by the [App] component
    (types of [src/types.ts]), of its event handlers, of the snapshot
    merge and of [saveToCloud], followed by the properties of the
    leveling rule, the action ledger, the goal editor and the
    persistence protocol.

    Conventions of the embedding.
    - A TypeScript [number] that holds a count, an amount of experience,
      a level or a timestamp is an unbounded integer ([Z]).
    - [Partial<T>] is a record of [option]s: [None] is an absent key.
    - The React state cell is a field of the [World]; [setState(f)] is
      the application of [f] to that field. The [state] a handler reads
      from its render closure is passed to the handler explicitly.
    - [Date.now()] and [new Date()] are readings supplied by the caller.
    - Time is a millisecond counter; [setTimeout] entries sit in a queue
      and fire when the counter reaches their due time. *)

From Stdlib Require Import ZArith QArith Qminmax Lia DecimalString DecimalZ.
From stdpp Require Import base numbers list strings.

Local Open Scope Z_scope.

(* ================================================================== *)
(** * Data model ([src/types.ts]) *)
(* ================================================================== *)

Module Action.
Record t : Type := mk {
  id : Z;
  title : string;
  discomfort : Z;
  feeling : string;
  date : string;
  xp : Z
}.
End Action.

Module WeeklyGoal.
Record t : Type := mk {
  title : string;
  description : string;
  deadline : string;
  progress : Z;
  target : Z
}.
End WeeklyGoal.

(** [Partial<WeeklyGoal>]. *)
Module PartialGoal.
Record t : Type := mk {
  title : option string;
  description : option string;
  deadline : option string;
  progress : option Z;
  target : option Z
}.
End PartialGoal.

Inductive View : Type := selection | login | mentor | coachee.
Inductive Tab : Type := dashboard | add | review.
Inductive ConnectionStatus : Type := connecting | connected | error | saving.

(** The anonymous type of [AppState.newAction]. *)
Module Draft.
Record t : Type := mk {
  title : string;
  discomfort : Z;
  feeling : string
}.
End Draft.

Module AppState.
Record t : Type := mk {
  (* Data *)
  xp : Z;
  level : Z;
  streak : Z;
  actions : list Action.t;
  weeklyGoal : WeeklyGoal.t;
  (* UI State *)
  currentView : View;
  activeTab : Tab;
  pinInput : string;
  pinError : bool;
  newAction : Draft.t;
  isEditingGoal : bool;
  tempGoal : PartialGoal.t;
  connectionStatus : ConnectionStatus;
  showConfetti : bool
}.
End AppState.

(** [Partial<AppState>]: the type of [stateOverride], and the view the
    component has of an untyped document ([docSnap.data()], the parsed
    local copy): each key of [AppState] is present or absent. Keys that
    are not keys of [AppState] are never read by the component. *)
Module PartialState.
Record t : Type := mk {
  xp : option Z;
  level : option Z;
  streak : option Z;
  actions : option (list Action.t);
  weeklyGoal : option WeeklyGoal.t;
  currentView : option View;
  activeTab : option Tab;
  pinInput : option string;
  pinError : option bool;
  newAction : option Draft.t;
  isEditingGoal : option bool;
  tempGoal : option PartialGoal.t;
  connectionStatus : option ConnectionStatus;
  showConfetti : option bool
}.
End PartialState.

(** The object literal [dataToSave] of [saveToCloud]. *)
Module Persisted.
Record t : Type := mk {
  xp : Z;
  level : Z;
  streak : Z;
  actions : list Action.t;
  weeklyGoal : WeeklyGoal.t
}.
End Persisted.

#[global] Instance View_eq_dec : EqDecision View.
Proof. solve_decision. Defined.
#[global] Instance Tab_eq_dec : EqDecision Tab.
Proof. solve_decision. Defined.
#[global] Instance ConnectionStatus_eq_dec : EqDecision ConnectionStatus.
Proof. solve_decision. Defined.

(* ================================================================== *)
(** * Object spread *)
(* ================================================================== *)

(** One key of [{...a, ...b}]: the value of [b] when [b] has the key. *)
Definition over {A : Type} (b : option A) (a : A) : A :=
  match b with
  | Some v => v
  | None => a
  end.

(** [{ ...g, ...d }] for [g : WeeklyGoal], [d : Partial<WeeklyGoal>]. *)
Definition spreadGoal (g : WeeklyGoal.t) (d : PartialGoal.t) : WeeklyGoal.t :=
  WeeklyGoal.mk
    (over (PartialGoal.title d) (WeeklyGoal.title g))
    (over (PartialGoal.description d) (WeeklyGoal.description g))
    (over (PartialGoal.deadline d) (WeeklyGoal.deadline g))
    (over (PartialGoal.progress d) (WeeklyGoal.progress g))
    (over (PartialGoal.target d) (WeeklyGoal.target g)).

(** [{ ...s, ...p }] for [s : AppState], [p : Partial<AppState>]. *)
Definition spreadState (s : AppState.t) (p : PartialState.t) : AppState.t :=
  AppState.mk
    (over (PartialState.xp p) (AppState.xp s))
    (over (PartialState.level p) (AppState.level s))
    (over (PartialState.streak p) (AppState.streak s))
    (over (PartialState.actions p) (AppState.actions s))
    (over (PartialState.weeklyGoal p) (AppState.weeklyGoal s))
    (over (PartialState.currentView p) (AppState.currentView s))
    (over (PartialState.activeTab p) (AppState.activeTab s))
    (over (PartialState.pinInput p) (AppState.pinInput s))
    (over (PartialState.pinError p) (AppState.pinError s))
    (over (PartialState.newAction p) (AppState.newAction s))
    (over (PartialState.isEditingGoal p) (AppState.isEditingGoal s))
    (over (PartialState.tempGoal p) (AppState.tempGoal s))
    (over (PartialState.connectionStatus p) (AppState.connectionStatus s))
    (over (PartialState.showConfetti p) (AppState.showConfetti s)).

(** [{ ...g }]: a partial object that carries every key of [g]. *)
Definition copyGoal (g : WeeklyGoal.t) : PartialGoal.t :=
  PartialGoal.mk
    (Some (WeeklyGoal.title g)) (Some (WeeklyGoal.description g))
    (Some (WeeklyGoal.deadline g)) (Some (WeeklyGoal.progress g))
    (Some (WeeklyGoal.target g)).

(** The empty object [{}] at type [Partial<WeeklyGoal>]. *)
Definition emptyGoal : PartialGoal.t :=
  PartialGoal.mk None None None None None.

(** A full [AppState] passed where a [Partial<AppState>] is expected. *)
Definition asPartial (s : AppState.t) : PartialState.t :=
  PartialState.mk
    (Some (AppState.xp s)) (Some (AppState.level s))
    (Some (AppState.streak s)) (Some (AppState.actions s))
    (Some (AppState.weeklyGoal s)) (Some (AppState.currentView s))
    (Some (AppState.activeTab s)) (Some (AppState.pinInput s))
    (Some (AppState.pinError s)) (Some (AppState.newAction s))
    (Some (AppState.isEditingGoal s)) (Some (AppState.tempGoal s))
    (Some (AppState.connectionStatus s)) (Some (AppState.showConfetti s)).

(** A document that carries exactly the five keys of [dataToSave]. *)
Definition docOf (d : Persisted.t) : PartialState.t :=
  PartialState.mk
    (Some (Persisted.xp d)) (Some (Persisted.level d))
    (Some (Persisted.streak d)) (Some (Persisted.actions d))
    (Some (Persisted.weeklyGoal d))
    None None None None None None None None None.

(* ================================================================== *)
(** * Numbers and their decimal text *)
(* ================================================================== *)

(** [n.toString()] for an integer [n] below [10^21] in absolute value,
    where JavaScript prints the plain decimal digits. From [10^21] on
    JavaScript prints an exponent form (['1e+21']) and this definition
    does not follow it: statements that use it on a value that is not
    a fixed small constant bound the value ([safeInteger]). *)
Definition toString (n : Z) : string :=
  NilZero.string_of_int (Z.to_int n).

(** [parseInt(s)] on the decimal text of an integer. [NaN] has no
    counterpart in the integer model; [parseInt] is applied only to
    texts produced by [toString], where the default is never reached
    ([parseInt_toString] below). *)
Definition parseInt (s : string) : Z :=
  match NilZero.int_of_string s with
  | Some d => Z.of_int d
  | None => 0
  end.

(* ================================================================== *)
(** * Constants and helpers *)
(* ================================================================== *)

(** [levelThresholds], as the entries of the object literal in the
    order JavaScript enumerates integer keys (ascending). *)
Definition levelThresholds : list (Z * Z) :=
  [ (1, 0); (2, 500); (3, 1000); (4, 2000); (5, 3500) ].

(** [levelThresholds[k]]; [None] is [undefined]. *)
Fixpoint lookupThreshold (tbl : list (Z * Z)) (k : Z) : option Z :=
  match tbl with
  | [] => None
  | (k', v) :: rest => if Z.eqb k' k then Some v else lookupThreshold rest k
  end.

(** [Object.entries(levelThresholds)]: the keys come back as strings. *)
Definition Object_entries (tbl : list (Z * Z)) : list (string * Z) :=
  map (fun kv => (toString (fst kv), snd kv)) tbl.

(** The level loop of [submitAction]:
    [let nextLevel = 1;
     for (const [lvl, threshold] of Object.entries(levelThresholds))
       if (newXp >= threshold) nextLevel = parseInt(lvl);] *)
Definition levelLoop (entries : list (string * Z)) (newXp : Z) : Z :=
  fold_left
    (fun nextLevel e =>
       if Z.geb newXp (snd e) then parseInt (fst e) else nextLevel)
    entries 1.

Definition levelFor (newXp : Z) : Z :=
  levelLoop (Object_entries levelThresholds) newXp.

Definition defaultGoal : WeeklyGoal.t :=
  WeeklyGoal.mk "En attente du Mentor..."
    "L'objectif de la semaine sera défini bientôt ici."
    "Dimanche" 0 1.

Definition defaultDraft : Draft.t := Draft.mk "" 5 "neutral".

Definition defaultState : AppState.t :=
  AppState.mk 0 1 0 [] defaultGoal
    selection dashboard "" false defaultDraft false emptyGoal
    connecting false.

(* ================================================================== *)
(** * Field updates: [{ ...prev, key: value }] *)
(* ================================================================== *)

Definition set_xp (v : Z) (s : AppState.t) : AppState.t :=
  spreadState s (PartialState.mk (Some v) None None None None None None
                   None None None None None None None).
Definition set_level (v : Z) (s : AppState.t) : AppState.t :=
  spreadState s (PartialState.mk None (Some v) None None None None None
                   None None None None None None None).
Definition set_actions (v : list Action.t) (s : AppState.t) : AppState.t :=
  spreadState s (PartialState.mk None None None (Some v) None None None
                   None None None None None None None).
Definition set_weeklyGoal (v : WeeklyGoal.t) (s : AppState.t) : AppState.t :=
  spreadState s (PartialState.mk None None None None (Some v) None None
                   None None None None None None None).
Definition set_currentView (v : View) (s : AppState.t) : AppState.t :=
  spreadState s (PartialState.mk None None None None None (Some v) None
                   None None None None None None None).
Definition set_activeTab (v : Tab) (s : AppState.t) : AppState.t :=
  spreadState s (PartialState.mk None None None None None None (Some v)
                   None None None None None None None).
Definition set_pinInput (v : string) (s : AppState.t) : AppState.t :=
  spreadState s (PartialState.mk None None None None None None None
                   (Some v) None None None None None None).
Definition set_pinError (v : bool) (s : AppState.t) : AppState.t :=
  spreadState s (PartialState.mk None None None None None None None
                   None (Some v) None None None None None).
Definition set_newAction (v : Draft.t) (s : AppState.t) : AppState.t :=
  spreadState s (PartialState.mk None None None None None None None
                   None None (Some v) None None None None).
Definition set_isEditingGoal (v : bool) (s : AppState.t) : AppState.t :=
  spreadState s (PartialState.mk None None None None None None None
                   None None None (Some v) None None None).
Definition set_tempGoal (v : PartialGoal.t) (s : AppState.t) : AppState.t :=
  spreadState s (PartialState.mk None None None None None None None
                   None None None None (Some v) None None).
Definition set_connectionStatus (v : ConnectionStatus) (s : AppState.t)
  : AppState.t :=
  spreadState s (PartialState.mk None None None None None None None
                   None None None None None (Some v) None).
Definition set_showConfetti (v : bool) (s : AppState.t) : AppState.t :=
  spreadState s (PartialState.mk None None None None None None None
                   None None None None None None (Some v)).

(* ================================================================== *)
(** * Snapshot merge (the mount effect) *)
(* ================================================================== *)

(** The updater of the [onSnapshot] handler when the document exists:
    [prev => ({ ...prev, ...remoteData, currentView: prev.currentView,
               activeTab: prev.activeTab, connectionStatus: 'connected' })].
    The local-storage branch of the effect applies the same updater to
    the parsed local copy. *)
Definition mergeSnapshot (prev : AppState.t) (remoteData : PartialState.t)
  : AppState.t :=
  set_connectionStatus connected
    (set_activeTab (AppState.activeTab prev)
       (set_currentView (AppState.currentView prev)
          (spreadState prev remoteData))).

(** The projection written by [saveToCloud]:
    [{ xp, level, streak, actions, weeklyGoal }] of [currentState]. *)
Definition dataToSave (currentState : AppState.t) : Persisted.t :=
  Persisted.mk
    (AppState.xp currentState) (AppState.level currentState)
    (AppState.streak currentState) (AppState.actions currentState)
    (AppState.weeklyGoal currentState).

(* ================================================================== *)
(** * The world around the component *)
(* ================================================================== *)

(** What a pending [setTimeout] entry runs when it fires. The two save
    callbacks carry the [dataToSave] their closure captured. *)
Inductive Callback : Type :=
| doSave (payload : Persisted.t)
    (* localStorage.setItem(...); setState(... 'connected') *)
| remoteSave (payload : Persisted.t)
    (* async () => { await setDoc(...); setState(... 'connected') } *)
| pinReset
    (* setState(prev => ({ ...prev, pinInput: '', pinError: false })) *)
| confettiOff.
    (* setState(prev => ({ ...prev, showConfetti: false })) *)

Record Timer : Type := mkTimer {
  tid : nat;
  due : Z;
  callback : Callback
}.

Inductive Backend : Type := LocalStorage | Firestore.

(** One call of [localStorage.setItem] or [setDoc], with its outcome. *)
Record WriteAttempt : Type := mkWrite {
  backend : Backend;
  written : Persisted.t;
  succeeded : bool
}.

Record World : Type := mkWorld {
  state : AppState.t;              (* the useState cell *)
  saveTimeoutRef : option nat;     (* saveTimeoutRef.current; None is null *)
  timers : list Timer;             (* pending setTimeout entries, oldest first *)
  nextTimerId : nat;               (* the id the next setTimeout returns *)
  clock : Z;                       (* milliseconds *)
  firebase : bool;                 (* auth && db *)
  writes : list WriteAttempt;      (* write attempts so far, oldest first *)
  writeOk : nat -> bool            (* whether the k-th attempt succeeds *)
}.

Definition setState (f : AppState.t -> AppState.t) (w : World) : World :=
  mkWorld (f (state w)) (saveTimeoutRef w) (timers w) (nextTimerId w)
    (clock w) (firebase w) (writes w) (writeOk w).

(** [setTimeout(cb, delay)]; the second component is the returned id. *)
Definition setTimeout (cb : Callback) (delay : Z) (w : World) : World * nat :=
  (mkWorld (state w) (saveTimeoutRef w)
     (timers w ++ [mkTimer (nextTimerId w) (clock w + delay) cb])
     (S (nextTimerId w)) (clock w) (firebase w) (writes w) (writeOk w),
   nextTimerId w).

Definition clearTimeout (i : nat) (w : World) : World :=
  mkWorld (state w) (saveTimeoutRef w)
    (filter (fun t => tid t <> i) (timers w))
    (nextTimerId w) (clock w) (firebase w) (writes w) (writeOk w).

Definition set_saveTimeoutRef (r : option nat) (w : World) : World :=
  mkWorld (state w) r (timers w) (nextTimerId w)
    (clock w) (firebase w) (writes w) (writeOk w).

(** A write attempt: it is logged with the outcome the environment
    gives it; the second component is that outcome ([false]: [setItem]
    throws, or the promise of [setDoc] rejects). *)
Definition attemptWrite (b : Backend) (d : Persisted.t) (w : World)
  : World * bool :=
  let ok := writeOk w (length (writes w)) in
  (mkWorld (state w) (saveTimeoutRef w) (timers w) (nextTimerId w)
     (clock w) (firebase w) (writes w ++ [mkWrite b d ok]) (writeOk w),
   ok).

(** [if (saveTimeoutRef.current) clearTimeout(saveTimeoutRef.current)];
    timer ids are positive, so a stored id is truthy. *)
Definition clearPendingSave (w : World) : World :=
  match saveTimeoutRef w with
  | Some i => clearTimeout i w
  | None => w
  end.

(** The body of [doSave]: when [setItem] throws, the [setState] after
    it is not reached. *)
Definition runDoSave (d : Persisted.t) (w : World) : World :=
  let '(w1, ok) := attemptWrite LocalStorage d w in
  if ok then setState (set_connectionStatus connected) w1 else w1.

(** The body of the debounced Firestore callback: when [setDoc]
    rejects, the [setState] after the [await] is not reached, and no
    handler is attached to the callback's promise. *)
Definition runRemoteSave (d : Persisted.t) (w : World) : World :=
  let '(w1, ok) := attemptWrite Firestore d w in
  if ok then setState (set_connectionStatus connected) w1 else w1.

(** [saveToCloud(force, stateOverride)]; [st] is the [state] of the
    render closure the function was created in. The [await] of the
    forced Firestore write is resolved within the call. *)
Definition saveToCloud (st : AppState.t) (force : bool)
    (stateOverride : option PartialState.t) (w : World) : World :=
  let currentState :=
    match stateOverride with
    | Some o => spreadState st o
    | None => st
    end in
  let w := setState (set_connectionStatus saving) w in
  let d := dataToSave currentState in
  if negb (firebase w) then
    let w := clearPendingSave w in
    if force then runDoSave d w
    else
      let '(w1, i) := setTimeout (doSave d) 1000 w in
      set_saveTimeoutRef (Some i) w1
  else
    let w := clearPendingSave w in
    if force then
      let '(w1, ok) := attemptWrite Firestore d w in
      if ok then setState (set_connectionStatus connected) w1
      else setState (set_connectionStatus error) w1
    else
      let '(w1, i) := setTimeout (remoteSave d) 1000 w in
      set_saveTimeoutRef (Some i) w1.

(** Running the callback of a timer that fires. *)
Definition fire (t : Timer) (w : World) : World :=
  match callback t with
  | doSave d => runDoSave d w
  | remoteSave d => runRemoteSave d w
  | pinReset => setState (fun prev => set_pinError false (set_pinInput "" prev)) w
  | confettiOff => setState (set_showConfetti false) w
  end.

(** One millisecond passes: the entries that are due leave the queue
    and run, oldest first. No callback of this component schedules a
    timer, so the queue needs no second look. *)
Definition tick (w : World) : World :=
  let now := clock w + 1 in
  let ready := filter (fun t => due t <= now) (timers w) in
  let rest := filter (fun t => ~ due t <= now) (timers w) in
  foldl (fun acc t => fire t acc)
    (mkWorld (state w) (saveTimeoutRef w) rest (nextTimerId w)
       now (firebase w) (writes w) (writeOk w))
    ready.

Fixpoint advance (n : nat) (w : World) : World :=
  match n with
  | O => w
  | S k => advance k (tick w)
  end.

(* ================================================================== *)
(** * Event handlers *)
(* ================================================================== *)

Definition setView (view : View) (w : World) : World :=
  setState (set_currentView view) w.

Definition setTab (tab : Tab) (w : World) : World :=
  setState (set_activeTab tab) w.

Definition handlePin (st : AppState.t) (num : string) (w : World) : World :=
  if Nat.ltb (String.length (AppState.pinInput st)) 4 then
    let newVal := String.append (AppState.pinInput st) num in
    let w := setState (set_pinInput newVal) w in
    if Nat.eqb (String.length newVal) 4 then
      if String.eqb newVal "1234" then
        setState (fun prev => set_pinInput "" (set_currentView mentor prev)) w
      else
        let w := setState (set_pinError true) w in
        fst (setTimeout pinReset 500 w)
    else w
  else w.

Definition clearPin (w : World) : World :=
  setState (fun prev => set_pinError false (set_pinInput "" prev)) w.

Definition toggleEditGoal (w : World) : World :=
  setState
    (fun prev =>
       let isEditing := negb (AppState.isEditingGoal prev) in
       set_tempGoal
         (if isEditing then copyGoal (AppState.weeklyGoal prev) else emptyGoal)
         (set_isEditingGoal isEditing prev))
    w.

(** The pair [(field, value)] of [updateTempGoal], with the value at
    the type [WeeklyGoal] gives the field. *)
Inductive GoalField : Type :=
| goalTitle (value : string)
| goalDescription (value : string)
| goalDeadline (value : string)
| goalProgress (value : Z)
| goalTarget (value : Z).

(** [{ ...tempGoal, [field]: value }]. *)
Definition putGoalField (f : GoalField) (d : PartialGoal.t) : PartialGoal.t :=
  match f with
  | goalTitle v =>
      PartialGoal.mk (Some v) (PartialGoal.description d)
        (PartialGoal.deadline d) (PartialGoal.progress d) (PartialGoal.target d)
  | goalDescription v =>
      PartialGoal.mk (PartialGoal.title d) (Some v)
        (PartialGoal.deadline d) (PartialGoal.progress d) (PartialGoal.target d)
  | goalDeadline v =>
      PartialGoal.mk (PartialGoal.title d) (PartialGoal.description d)
        (Some v) (PartialGoal.progress d) (PartialGoal.target d)
  | goalProgress v =>
      PartialGoal.mk (PartialGoal.title d) (PartialGoal.description d)
        (PartialGoal.deadline d) (Some v) (PartialGoal.target d)
  | goalTarget v =>
      PartialGoal.mk (PartialGoal.title d) (PartialGoal.description d)
        (PartialGoal.deadline d) (PartialGoal.progress d) (Some v)
  end.

Definition updateTempGoal (f : GoalField) (w : World) : World :=
  setState (fun prev => set_tempGoal (putGoalField f (AppState.tempGoal prev)) prev) w.

(** The goal [saveGoal] commits: [{ ...state.weeklyGoal, ...state.tempGoal }]. *)
Definition commit (current : WeeklyGoal.t) (draft : PartialGoal.t)
  : WeeklyGoal.t :=
  spreadGoal current draft.

Definition saveGoal (st : AppState.t) (w : World) : World :=
  let newGoal := commit (AppState.weeklyGoal st) (AppState.tempGoal st) in
  let newState := set_isEditingGoal false (set_weeklyGoal newGoal st) in
  let w := setState (fun _ => newState) w in
  saveToCloud st true (Some (asPartial newState)) w.

(** The pair [(field, value)] of [updateNewAction], for the three
    fields the form edits. *)
Inductive DraftField : Type :=
| draftTitle (value : string)
| draftDiscomfort (value : Z)
| draftFeeling (value : string).

Definition putDraftField (f : DraftField) (d : Draft.t) : Draft.t :=
  match f with
  | draftTitle v => Draft.mk v (Draft.discomfort d) (Draft.feeling d)
  | draftDiscomfort v => Draft.mk (Draft.title d) v (Draft.feeling d)
  | draftFeeling v => Draft.mk (Draft.title d) (Draft.discomfort d) v
  end.

Definition updateNewAction (f : DraftField) (w : World) : World :=
  setState (fun prev => set_newAction (putDraftField f (AppState.newAction prev)) prev) w.

(** [totalPoints] of [submitAction]. *)
Definition totalPoints (st : AppState.t) : Z :=
  let discomfortPoints :=
    parseInt (toString (Draft.discomfort (AppState.newAction st))) * 10 in
  let basePoints := 50 in
  basePoints + discomfortPoints.

(** [newEntry] of [submitAction]; [now] is the reading of [Date.now()]
    and [today] the text [new Date().toISOString().split('T')[0]]. *)
Definition newEntry (st : AppState.t) (now : Z) (today : string) : Action.t :=
  Action.mk now
    (Draft.title (AppState.newAction st))
    (parseInt (toString (Draft.discomfort (AppState.newAction st))))
    (Draft.feeling (AppState.newAction st))
    today
    (totalPoints st).

(** [newState] of [submitAction]. *)
Definition recordAction (st : AppState.t) (now : Z) (today : string)
  : AppState.t :=
  let newActions := newEntry st now today :: AppState.actions st in
  let newXp := AppState.xp st + totalPoints st in
  let nextLevel := levelLoop (Object_entries levelThresholds) newXp in
  set_showConfetti true
    (set_activeTab dashboard
       (set_newAction (Draft.mk "" 5 "neutral")
          (set_level nextLevel
             (set_xp newXp
                (set_actions newActions st))))).

Definition submitAction (st : AppState.t) (now : Z) (today : string)
    (w : World) : World :=
  let newState := recordAction st now today in
  let w := setState (fun _ => newState) w in
  let w := saveToCloud st true (Some (asPartial newState)) w in
  fst (setTimeout confettiOff 2500 w).

Definition logout (w : World) : World :=
  setState (fun prev => set_pinInput "" (set_currentView selection prev)) w.

(** The [onSnapshot] handler of the mount effect. Its [saveToCloud] is
    the one of the first render, whose [state] is [defaultState]. *)
Definition onSnapshot (docSnap : option PartialState.t) (w : World) : World :=
  match docSnap with
  | Some remoteData => setState (fun prev => mergeSnapshot prev remoteData) w
  | None => saveToCloud defaultState true None w
  end.

(** The error callback of [onSnapshot], and the [catch] of [init]. *)
Definition onSyncError (w : World) : World :=
  setState (set_connectionStatus error) w.

(** The local-storage branch of the mount effect; [localData] is the
    parsed content of the key, when there is one. *)
Definition loadLocal (localData : option PartialState.t) (w : World) : World :=
  match localData with
  | Some parsed => setState (fun prev => mergeSnapshot prev parsed) w
  | None => setState (set_connectionStatus connected) w
  end.

(** What the user and the clock can do to a mounted component. Each
    handler runs in the closure of the latest render: the [state] it
    reads is the content of the state cell. *)
Inductive Event : Type :=
| evSetView (view : View)
| evSetTab (tab : Tab)
| evHandlePin (num : string)
| evClearPin
| evToggleEditGoal
| evUpdateTempGoal (f : GoalField)
| evSaveGoal
| evUpdateNewAction (f : DraftField)
| evSubmitAction (now : Z) (today : string)
| evLogout
| evTick.

Definition step (e : Event) (w : World) : World :=
  match e with
  | evSetView v => setView v w
  | evSetTab t => setTab t w
  | evHandlePin num => handlePin (state w) num w
  | evClearPin => clearPin w
  | evToggleEditGoal => toggleEditGoal w
  | evUpdateTempGoal f => updateTempGoal f w
  | evSaveGoal => saveGoal (state w) w
  | evUpdateNewAction f => updateNewAction f w
  | evSubmitAction now today => submitAction (state w) now today w
  | evLogout => logout w
  | evTick => tick w
  end.

Definition run (es : list Event) (w : World) : World :=
  foldl (fun acc e => step e acc) w es.

(** The world of a freshly mounted component. *)
Definition initialWorld (fb : bool) (ok : nat -> bool) : World :=
  mkWorld defaultState None [] 1%nat 0 fb [] ok.

(* ================================================================== *)
(** * The progress bar of [renderCoachee] *)
(* ================================================================== *)

(** [levelThresholds[level + 1] || 10000]: [undefined] and [0] are
    both falsy. *)
Definition nextLvlXp (level : Z) : Z :=
  match lookupThreshold levelThresholds (level + 1) with
  | Some t => if Z.eqb t 0 then 10000 else t
  | None => 10000
  end.

(** [Math.min(100, ((xp - currentLvlXp) / (nextLvlXp - currentLvlXp)) * 100)]
    over the rationals. The code computes in doubles, whose result can
    differ from the exact quotient in the last place (35/500*100 is
    7.000000000000001): the statements about this definition are about
    its sign and its bounds, which rounding preserves, not about its
    exact value. [None] stands for a result that is not a finite
    number: [currentLvlXp] is [undefined] (the arithmetic yields [NaN]),
    or the divisor is zero. *)
Definition progressPercent (xp level : Z) : option Q :=
  match lookupThreshold levelThresholds level with
  | None => None
  | Some currentLvlXp =>
      let divisor := nextLvlXp level - currentLvlXp in
      if Z.eqb divisor 0 then None
      else Some (Qmin (inject_Z 100)
                   (Qmult (Qdiv (inject_Z (xp - currentLvlXp)) (inject_Z divisor))
                      (inject_Z 100)))
  end.

(* ================================================================== *)
(** * Scheduling vocabulary used by the statements *)
(* ================================================================== *)

(** An entry of the timer queue that writes when it fires. *)
Definition isSave (t : Timer) : bool :=
  match callback t with
  | doSave _ | remoteSave _ => true
  | pinReset | confettiOff => false
  end.

(** The only save entry that may be pending is the one whose id
    [saveTimeoutRef.current] holds. *)
Definition wf (w : World) : Prop :=
  forall t, t ∈ timers w -> isSave t = true -> saveTimeoutRef w = Some (tid t).

(** A local mutation saved through the debounced branch: the handler
    pattern of [saveGoal] and [submitAction],
    [setState(newState); saveToCloud(force, newState)], with [force]
    false. The handlers of the component all pass [true]; this is the
    call that reaches the [setTimeout] branches of [saveToCloud]. *)
Definition debouncedMutation (M : AppState.t -> AppState.t) (w : World)
  : World :=
  let st := state w in
  let newState := M st in
  let w := setState (fun _ => newState) w in
  saveToCloud st false (Some (asPartial newState)) w.

(** The same pattern with [force] true, as the handlers write it. *)
Definition forcedMutation (M : AppState.t -> AppState.t) (w : World)
  : World :=
  let st := state w in
  let newState := M st in
  let w := setState (fun _ => newState) w in
  saveToCloud st true (Some (asPartial newState)) w.

(** The timers of a list that are due once the clock shows [now]. *)
Definition dueAt (now : Z) (l : list Timer) : list Timer :=
  filter (fun t => due t <= now) l.

Definition notDueAt (now : Z) (l : list Timer) : list Timer :=
  filter (fun t => ~ due t <= now) l.

(** Running a list of callbacks, oldest first. *)
Definition fireAll (l : list Timer) (w : World) : World :=
  foldl (fun acc t => fire t acc) w l.

(** The log entry a save callback adds when it runs in [w]. *)
Definition attemptOf (cb : Callback) (w : World) : list WriteAttempt :=
  match cb with
  | doSave d => [mkWrite LocalStorage d (writeOk w (length (writes w)))]
  | remoteSave d => [mkWrite Firestore d (writeOk w (length (writes w)))]
  | pinReset | confettiOff => []
  end.

(** The callback the debounced branch of [saveToCloud] schedules. *)
Definition saveCallback (fb : bool) (d : Persisted.t) : Callback :=
  if fb then remoteSave d else doSave d.

(** The status a forced save leaves: the write succeeded, or it failed
    under the [try] of the Firestore branch, or it failed in the
    local-storage branch, which has no handler. *)
Definition statusAfterForced (fb ok : bool) : ConnectionStatus :=
  if ok then connected else if fb then error else saving.

(** A document whose [level] disagrees with its [xp]: the work of a
    writer that raised the level and not the experience. *)
Definition staleDoc : PartialState.t :=
  docOf (Persisted.mk 0 5 0 [] defaultGoal).

(** Case analysis on every comparison [a <=? x] of the goal. *)
Ltac leb_cases x :=
  repeat match goal with
         | |- context [Z.leb ?a x] => destruct (Z.leb_spec0 a x)
         end.

(* ================================================================== *)
(** * Helpers of the views *)
(* ================================================================== *)

(** [getLevelTitle]. *)
Definition getLevelTitle (lvl : Z) : string :=
  if Z.eqb lvl 1 then "Novice"
  else if Z.eqb lvl 2 then "Apprentie"
  else if Z.eqb lvl 3 then "Aventurière"
  else if Z.eqb lvl 4 then "Éclaireuse"
  else if Z.eqb lvl 5 then "Légende"
  else "Héroïne".

(** The journal of the dashboard: [state.actions.slice(0, 3)]. *)
Definition journal (st : AppState.t) : list Action.t :=
  take 3 (AppState.actions st).

(** The statistic of the review tab, before [toFixed(1)] formats it:
    [actions.reduce((acc, curr) => acc + curr.discomfort, 0)
       / (actions.length || 1)], over the rationals. *)
Definition averageDiscomfort (actions : list Action.t) : Q :=
  let total := fold_left (fun acc curr => acc + Action.discomfort curr) actions 0 in
  let count := Z.of_nat (length actions) in
  Qdiv (inject_Z total) (inject_Z (if Z.eqb count 0 then 1 else count)).

(** The segments of the weekly mission:
    [Array.from({length: target}).map((_, i) => i < progress)];
    [true] is a filled segment. A negative length counts as 0, and a
    length above [2^32 - 1] makes the array creation throw ([None]). *)
Definition goalSegments (g : WeeklyGoal.t) : option (list bool) :=
  if Z.ltb 4294967295 (WeeklyGoal.target g) then None
  else Some (map (fun i => Z.ltb (Z.of_nat i) (WeeklyGoal.progress g))
               (seq 0 (Z.to_nat (WeeklyGoal.target g)))).

(* ================================================================== *)
(** * Vocabulary of the further statements *)
(* ================================================================== *)

(** [g[field] = value] on a full goal: what an edit of one field is
    meant to do to the goal once committed. *)
Definition assignGoalField (f : GoalField) (g : WeeklyGoal.t) : WeeklyGoal.t :=
  match f with
  | goalTitle v =>
      WeeklyGoal.mk v (WeeklyGoal.description g) (WeeklyGoal.deadline g)
        (WeeklyGoal.progress g) (WeeklyGoal.target g)
  | goalDescription v =>
      WeeklyGoal.mk (WeeklyGoal.title g) v (WeeklyGoal.deadline g)
        (WeeklyGoal.progress g) (WeeklyGoal.target g)
  | goalDeadline v =>
      WeeklyGoal.mk (WeeklyGoal.title g) (WeeklyGoal.description g) v
        (WeeklyGoal.progress g) (WeeklyGoal.target g)
  | goalProgress v =>
      WeeklyGoal.mk (WeeklyGoal.title g) (WeeklyGoal.description g)
        (WeeklyGoal.deadline g) v (WeeklyGoal.target g)
  | goalTarget v =>
      WeeklyGoal.mk (WeeklyGoal.title g) (WeeklyGoal.description g)
        (WeeklyGoal.deadline g) (WeeklyGoal.progress g) v
  end.

(** The keypad of the login view passes one character per key. *)
Definition keypadEvent (e : Event) : Prop :=
  match e with
  | evHandlePin num => String.length num = 1%nat
  | _ => True
  end.

(** Everything that can reach a mounted component: an event of the
    user or the clock, a snapshot of the document (or the news that
    there is none), or a failure of the subscription. *)
Inductive Input : Type :=
| fromUser (e : Event)
| snapshot (docSnap : option PartialState.t)
| syncError.

Definition react (i : Input) (w : World) : World :=
  match i with
  | fromUser e => step e w
  | snapshot docSnap => onSnapshot docSnap w
  | syncError => onSyncError w
  end.

(** What the views offer: their buttons call [setView] with
    ['selection'], ['login'] or ['coachee'], never with ['mentor']. *)
Definition offered (i : Input) : Prop :=
  match i with
  | fromUser (evSetView view) => view <> mentor
  | _ => True
  end.

(** [Number.MAX_SAFE_INTEGER], and [Number.isSafeInteger]: the
    integers on which the arithmetic of doubles is the arithmetic of
    integers as long as the results stay in the range. *)
Definition MAX_SAFE_INTEGER : Z := 9007199254740991.

Definition safeInteger (n : Z) : Prop :=
  - MAX_SAFE_INTEGER <= n <= MAX_SAFE_INTEGER.

(** The events whose handler calls [saveToCloud]. *)
Definition isSaveEvent (e : Event) : bool :=
  match e with
  | evSaveGoal | evSubmitAction _ _ => true
  | _ => false
  end.

Fixpoint countSaveEvents (es : list Event) : nat :=
  match es with
  | [] => O
  | e :: rest => ((if isSaveEvent e then 1 else 0) + countSaveEvents rest)%nat
  end.

(** The backend [saveToCloud] writes to. *)
Definition backendOf (w : World) : Backend :=
  if firebase w then Firestore else LocalStorage.

(** The experience is the sum of what the actions of the ledger were
    worth, and the level is the level of that experience. *)
Definition ledgerConsistent (st : AppState.t) : Prop :=
  AppState.xp st = fold_right Z.add 0 (map Action.xp (AppState.actions st)) /\
  AppState.level st = levelFor (AppState.xp st).

(* ================================================================== *)
(** * Decimal text *)
(* ================================================================== *)

Lemma parseInt_toString (n : Z) : parseInt (toString n) = n.
Proof.
  unfold parseInt, toString.
  rewrite NilZero.isi.
  - apply DecimalZ.of_to.
  - destruct n as [|p|p]; simpl; try discriminate.
    intros [= H]. exact (DecimalPos.Unsigned.to_uint_nonnil p H).
  - destruct n as [|p|p]; simpl; try discriminate.
    intros [= H]. exact (DecimalPos.Unsigned.to_uint_nonnil p H).
Qed.

(* ================================================================== *)
(** * Spread *)
(* ================================================================== *)

Lemma spreadState_asPartial (s s' : AppState.t) :
  spreadState s (asPartial s') = s'.
Proof. destruct s'; reflexivity. Qed.

Lemma dataToSave_set_connectionStatus (c : ConnectionStatus) (s : AppState.t) :
  dataToSave (set_connectionStatus c s) = dataToSave s.
Proof. reflexivity. Qed.

(* ================================================================== *)
(** * Leveling *)
(* ================================================================== *)

Lemma last_cons_default {A : Type} (l : list A) (a d : A) :
  List.last (a :: l) d = List.last l a.
Proof.
  revert a d. induction l as [|b l IH]; intros a d; [reflexivity|].
  change (List.last (a :: b :: l) d) with (List.last (b :: l) d).
  now rewrite !IH.
Qed.

Lemma levelLoop_entries (entries : list (string * Z)) (x acc : Z) :
  fold_left
    (fun nextLevel e => if Z.geb x (snd e) then parseInt (fst e) else nextLevel)
    entries acc
  = match filter (fun e => snd e <= x) entries with
    | [] => acc
    | e :: rest => parseInt (fst (List.last rest e))
    end.
Proof.
  revert acc. induction entries as [|e entries IH]; intros acc; [reflexivity|].
  cbn [fold_left]. rewrite IH. rewrite filter_cons.
  destruct (decide (snd e <= x)) as [Hle|Hgt].
  - replace (Z.geb x (snd e)) with true by (symmetry; apply Z.geb_le; lia).
    destruct (filter (fun e0 => snd e0 <= x) entries) as [|e1 rest];
      [reflexivity|].
    now rewrite last_cons_default.
  - replace (Z.geb x (snd e)) with false
      by (symmetry; rewrite Z.geb_leb; apply Z.leb_gt; lia).
    reflexivity.
Qed.

(** The loop in closed form over the five thresholds. *)
Lemma levelFor_cases (x : Z) :
  levelFor x =
    if Z.leb 3500 x then 5
    else if Z.leb 2000 x then 4
    else if Z.leb 1000 x then 3
    else if Z.leb 500 x then 2
    else 1.
Proof.
  unfold levelFor, levelLoop. rewrite levelLoop_entries.
  change (Object_entries levelThresholds)
    with [("1", 0); ("2", 500); ("3", 1000); ("4", 2000); ("5", 3500)].
  repeat (rewrite filter_cons; cbn [snd]).
  rewrite filter_nil.
  repeat case_decide; leb_cases x; try lia; reflexivity.
Qed.


Lemma lookupThreshold_table (l t : Z) :
  lookupThreshold levelThresholds l = Some t ->
  (l = 1 /\ t = 0) \/ (l = 2 /\ t = 500) \/ (l = 3 /\ t = 1000) \/
  (l = 4 /\ t = 2000) \/ (l = 5 /\ t = 3500).
Proof.
  unfold levelThresholds. cbn [lookupThreshold].
  repeat match goal with
         | |- context [Z.eqb ?k l] => destruct (Z.eqb_spec k l)
         end;
    intros H; inversion H; subst; lia.
Qed.



(* ================================================================== *)
(** * The state cell after a save *)
(* ================================================================== *)

Lemma saveToCloud_forced_state st o w :
  state (saveToCloud st true o w) =
  set_connectionStatus
    (statusAfterForced (firebase w) (writeOk w (length (writes w))))
    (state w).
Proof.
  unfold saveToCloud, clearPendingSave, runDoSave, attemptWrite.
  cbn. destruct (firebase w), (saveTimeoutRef w); cbn;
    destruct (writeOk w (length (writes w))); reflexivity.
Qed.

Lemma saveToCloud_debounced_state st o w :
  state (saveToCloud st false o w) = set_connectionStatus saving (state w).
Proof.
  unfold saveToCloud, clearPendingSave. cbn.
  destruct (firebase w), (saveTimeoutRef w); reflexivity.
Qed.

Lemma state_submitAction st now today w :
  state (submitAction st now today w) =
  set_connectionStatus
    (statusAfterForced (firebase w) (writeOk w (length (writes w))))
    (recordAction st now today).
Proof.
  unfold submitAction. cbn [fst setTimeout state].
  rewrite saveToCloud_forced_state. reflexivity.
Qed.

Lemma state_saveGoal st w :
  state (saveGoal st w) =
  set_connectionStatus
    (statusAfterForced (firebase w) (writeOk w (length (writes w))))
    (set_isEditingGoal false
       (set_weeklyGoal (commit (AppState.weeklyGoal st) (AppState.tempGoal st)) st)).
Proof. unfold saveGoal. rewrite saveToCloud_forced_state. reflexivity. Qed.

(* ================================================================== *)
(** * Action ledger *)
(* ================================================================== *)

Lemma totalPoints_formula (st : AppState.t) :
  totalPoints st = 50 + Draft.discomfort (AppState.newAction st) * 10.
Proof. unfold totalPoints. now rewrite parseInt_toString. Qed.

(** C6. As long as the discomfort, the points and the experience before
    and after are safe integers (where the numbers of the code are
    integers), the action [submitAction] records is worth
    [50 + discomfort * 10] points (100 for discomfort 5, 150 for 10,
    60 for 1); the experience after the handler is the experience
    before plus those points, and the level after it is [levelFor] of
    the new experience; from experience 450 an action of discomfort 8
    leads to experience 580 and level 2. *)
Theorem submitAction_award (w : World) (now : Z) (today title feeling : string) :
  let st := state w in
  let d := Draft.discomfort (AppState.newAction st) in
  let w' := step (evSubmitAction now today) w in
  safeInteger (d * 10) ->
  safeInteger (50 + d * 10) ->
  safeInteger (AppState.xp st) ->
  safeInteger (AppState.xp st + (50 + d * 10)) ->
  Action.discomfort (newEntry st now today) = d /\
  Action.xp (newEntry st now today) = 50 + d * 10 /\
  head (AppState.actions (state w')) = Some (newEntry st now today) /\
  AppState.xp (state w') = AppState.xp st + (50 + d * 10) /\
  AppState.level (state w') = levelFor (AppState.xp (state w')) /\
  totalPoints (set_newAction (Draft.mk title 5 feeling) st) = 100 /\
  totalPoints (set_newAction (Draft.mk title 10 feeling) st) = 150 /\
  totalPoints (set_newAction (Draft.mk title 1 feeling) st) = 60 /\
  (let st8 := set_newAction (Draft.mk title 8 feeling) (set_xp 450 st) in
   AppState.xp (recordAction st8 now today) = 580 /\
   AppState.level (recordAction st8 now today) = 2).
Proof.
  intros st d w' _ _ _ _. subst w'. cbn [step]. rewrite state_submitAction.
  fold st. repeat split; try reflexivity.
  - apply parseInt_toString.
  - apply totalPoints_formula.
  - cbn. now rewrite totalPoints_formula.
Qed.

Lemma submitAction_award_witness :
  let w := step (evUpdateNewAction (draftDiscomfort 8))
             (initialWorld true (fun _ => true)) in
  let w' := step (evSubmitAction 1700000000000 "2023-11-14") w in
  safeInteger (8 * 10) /\ safeInteger (50 + 8 * 10) /\
  safeInteger 0 /\ safeInteger (0 + (50 + 8 * 10)) /\
  AppState.xp (state w') = 130 /\
  AppState.level (state w') = levelFor 130.
Proof.
  assert (forall n, -9007199254740991 <= n <= 9007199254740991 -> safeInteger n)
    as Hsafe by (intros n Hn; exact Hn).
  split; [apply Hsafe; lia|]. split; [apply Hsafe; lia|].
  split; [apply Hsafe; lia|]. split; [apply Hsafe; lia|].
  destruct (submitAction_award
              (step (evUpdateNewAction (draftDiscomfort 8))
                 (initialWorld true (fun _ => true)))
              1700000000000 "2023-11-14" "" "")
    as (_ & _ & _ & Hx & Hl & _);
    try (apply Hsafe; cbn; lia).
  split; [exact Hx | exact Hl].
Defined.

(* ================================================================== *)
(** * Goal editor *)
(* ================================================================== *)

(** C8. Each field of the committed goal is the draft's value when the
    draft has the field and the current goal's value otherwise; a draft
    that only has a title changes only the title; and the goal in the
    state after [saveGoal] is that committed goal. *)
Theorem commit_overwrites_present_fields
    (current : WeeklyGoal.t) (draft : PartialGoal.t) (X : string) (w : World) :
  WeeklyGoal.title (commit current draft)
    = default (WeeklyGoal.title current) (PartialGoal.title draft) /\
  WeeklyGoal.description (commit current draft)
    = default (WeeklyGoal.description current) (PartialGoal.description draft) /\
  WeeklyGoal.deadline (commit current draft)
    = default (WeeklyGoal.deadline current) (PartialGoal.deadline draft) /\
  WeeklyGoal.progress (commit current draft)
    = default (WeeklyGoal.progress current) (PartialGoal.progress draft) /\
  WeeklyGoal.target (commit current draft)
    = default (WeeklyGoal.target current) (PartialGoal.target draft) /\
  commit current (PartialGoal.mk (Some X) None None None None)
    = WeeklyGoal.mk X (WeeklyGoal.description current)
        (WeeklyGoal.deadline current) (WeeklyGoal.progress current)
        (WeeklyGoal.target current) /\
  AppState.weeklyGoal (state (step evSaveGoal w))
    = commit (AppState.weeklyGoal (state w)) (AppState.tempGoal (state w)).
Proof.
  repeat split; try (destruct draft as [[?|] [?|] [?|] [?|] [?|]]; reflexivity).
  cbn [step]. now rewrite state_saveGoal.
Qed.

(* ================================================================== *)
(** * Snapshot merge *)
(* ================================================================== *)

(** C1, as stated, fails: the handler merges a document with
    experience 0 and level 5 into a level of 5, and [levelFor 0] is 1. *)
Lemma onSnapshot_keeps_remote_level :
  let w := onSnapshot (Some staleDoc) (initialWorld true (fun _ => true)) in
  AppState.xp (state w) = 0 /\
  AppState.level (state w) = 5 /\
  AppState.level (state w) <> levelFor (AppState.xp (state w)).
Proof. vm_compute. repeat split. discriminate. Qed.

(** C1, amended. After the [onSnapshot] handler has merged a document,
    the level in memory is the level the document carries, and the
    level held before when the document carries none; the experience is
    merged the same way; nothing is recomputed. The level therefore is
    [levelFor] of the merged experience when the document carries an
    experience and the level [levelFor] gives it. *)
Theorem onSnapshot_level_from_document
    (w : World) (remoteData : PartialState.t) (x : Z) (d : Persisted.t) :
  let w' := onSnapshot (Some remoteData) w in
  AppState.level (state w')
    = default (AppState.level (state w)) (PartialState.level remoteData) /\
  AppState.xp (state w')
    = default (AppState.xp (state w)) (PartialState.xp remoteData) /\
  (let doc := docOf (Persisted.mk x (levelFor x) (Persisted.streak d)
                       (Persisted.actions d) (Persisted.weeklyGoal d)) in
   AppState.level (state (onSnapshot (Some doc) w))
     = levelFor (AppState.xp (state (onSnapshot (Some doc) w)))).
Proof.
  cbn -[levelFor]. destruct remoteData as [[?|] [?|] ? ? ? ? ? ? ? ? ? ? ? ?];
    repeat split; reflexivity.
Qed.

(** C2, as stated, fails: the merge sets [connectionStatus], one of the
    fields the claim lists as untouched. *)
Lemma mergeSnapshot_sets_connectionStatus :
  AppState.connectionStatus (mergeSnapshot defaultState staleDoc) = connected /\
  AppState.connectionStatus defaultState = connecting /\
  AppState.connectionStatus (mergeSnapshot defaultState staleDoc)
    <> AppState.connectionStatus defaultState.
Proof. vm_compute. repeat split. discriminate. Qed.

(** C2, amended. The merge of a snapshot (remote or parsed local copy)
    sets [connectionStatus] to [connected] and keeps [currentView] and
    [activeTab], whatever the document carries. Each of [pinInput],
    [pinError], [newAction], [isEditingGoal], [tempGoal] and
    [showConfetti] keeps its value when the document does not carry
    that key. For a document with exactly the keys [saveToCloud]
    writes, the merge replaces the five persisted fields by the
    document's and, [connectionStatus] apart, leaves every other field
    as it was. *)
Theorem mergeSnapshot_frame
    (prev : AppState.t) (remoteData : PartialState.t) (d : Persisted.t) :
  let s := mergeSnapshot prev remoteData in
  AppState.connectionStatus s = connected /\
  AppState.currentView s = AppState.currentView prev /\
  AppState.activeTab s = AppState.activeTab prev /\
  AppState.pinInput s
    = default (AppState.pinInput prev) (PartialState.pinInput remoteData) /\
  AppState.pinError s
    = default (AppState.pinError prev) (PartialState.pinError remoteData) /\
  AppState.newAction s
    = default (AppState.newAction prev) (PartialState.newAction remoteData) /\
  AppState.isEditingGoal s
    = default (AppState.isEditingGoal prev)
        (PartialState.isEditingGoal remoteData) /\
  AppState.tempGoal s
    = default (AppState.tempGoal prev) (PartialState.tempGoal remoteData) /\
  AppState.showConfetti s
    = default (AppState.showConfetti prev)
        (PartialState.showConfetti remoteData) /\
  mergeSnapshot prev (docOf d)
    = AppState.mk
        (Persisted.xp d) (Persisted.level d) (Persisted.streak d)
        (Persisted.actions d) (Persisted.weeklyGoal d)
        (AppState.currentView prev) (AppState.activeTab prev)
        (AppState.pinInput prev) (AppState.pinError prev)
        (AppState.newAction prev) (AppState.isEditingGoal prev)
        (AppState.tempGoal prev) connected (AppState.showConfetti prev).
Proof.
  cbn.
  destruct remoteData as [? ? ? ? ? ? ? [?|] [?|] [?|] [?|] [?|] ? [?|]];
    repeat split; reflexivity.
Qed.

(* ================================================================== *)
(** * Action ids *)
(* ================================================================== *)

(** C9, as stated, fails: two actions submitted while [Date.now()]
    reads the same millisecond get the same id. *)
Lemma same_millisecond_same_id :
  let w0 := initialWorld true (fun _ => true) in
  let w1 := step (evSubmitAction 1700000000000 "2023-11-14") w0 in
  let w2 := step (evSubmitAction 1700000000000 "2023-11-14") w1 in
  exists later earlier,
    AppState.actions (state w1) = [earlier] /\
    AppState.actions (state w2) = [later; earlier] /\
    Action.id later = Action.id earlier /\
    ~ Action.id earlier < Action.id later.
Proof.
  do 2 eexists. split; [vm_compute; reflexivity|].
  split; [vm_compute; reflexivity|].
  split; [reflexivity|]. cbn [Action.id]. lia.
Qed.

(** C9, amended. The id of an action is the reading [Date.now()] gave
    when [submitAction] ran; of two actions, the later one has the
    strictly greater id exactly when its reading is strictly greater
    than the earlier one's. *)
Theorem action_id_is_clock_reading
    (w : World) (now1 now2 : Z) (today1 today2 : string) (between : list Event) :
  let w1 := step (evSubmitAction now1 today1) w in
  let w2 := step (evSubmitAction now2 today2) (run between w1) in
  Action.id <$> head (AppState.actions (state w1)) = Some now1 /\
  Action.id <$> head (AppState.actions (state w2)) = Some now2 /\
  Z.ltb (Action.id (newEntry (state w) now1 today1))
        (Action.id (newEntry (state (run between w1)) now2 today2))
    = Z.ltb now1 now2.
Proof.
  cbn [step]. rewrite !state_submitAction. repeat split; reflexivity.
Qed.

(* ================================================================== *)
(** * Progress bar *)
(* ================================================================== *)

(** C10, as stated, fails: with experience 0 at level 2 the bar is at
    -100 percent, below the interval the claim clamps it to. *)
Lemma progressPercent_below_zero :
  exists p, progressPercent 0 2 = Some p /\
            Qeq p (inject_Z (-100)) /\ ~ Qle (inject_Z 0) p.
Proof.
  eexists. split; [reflexivity|]. split; [reflexivity|].
  vm_compute. intros H. apply H. reflexivity.
Qed.

Lemma divisor_positive (level cur : Z) :
  lookupThreshold levelThresholds level = Some cur ->
  0 < nextLvlXp level - cur.
Proof.
  intros H. apply lookupThreshold_table in H.
  destruct H as [[-> ->]|[[-> ->]|[[-> ->]|[[-> ->]|[-> ->]]]]]; vm_compute;
    reflexivity.
Qed.

(** The quotient of the progress bar as one fraction. *)
Lemma percent_as_fraction (a b : Z) :
  0 < b ->
  Qeq (Qmult (Qdiv (inject_Z a) (inject_Z b)) (inject_Z 100))
      (Qmake (a * 100) (Z.to_pos b)).
Proof.
  intros Hb. destruct b as [|b|b]; try lia.
  unfold Qeq, Qdiv, Qmult, Qinv, inject_Z. cbn. lia.
Qed.

Lemma percent_le (a b c : Z) :
  0 < b ->
  (Qle (Qmake (a * 100) (Z.to_pos b)) (inject_Z c) <-> a * 100 <= c * b) /\
  (Qle (inject_Z c) (Qmake (a * 100) (Z.to_pos b)) <-> c * b <= a * 100).
Proof.
  intros Hb. destruct b as [|b|b]; try lia.
  unfold Qle, inject_Z. cbn. split; split; lia.
Qed.

(** C10, amended. For every experience and every level: when the level
    has no entry in the threshold table its threshold is undefined and
    the bar is not a number; when it has one, the divisor, which uses
    the threshold of the next level or 10000 when the table has no
    next level, is positive, so nothing is divided by zero, and the bar
    is at most 100 percent, is exactly 100 percent when the experience
    has reached the upper threshold and below 100 percent otherwise.
    Nothing caps the value from below: it is at least 0 exactly when
    the experience has reached the threshold of the level, and negative
    otherwise. *)
Theorem progressPercent_capped_above (xp level : Z) :
  match lookupThreshold levelThresholds level with
  | None => progressPercent xp level = None
  | Some cur =>
      0 < nextLvlXp level - cur /\
      nextLvlXp level
        = default 10000 (lookupThreshold levelThresholds (level + 1)) /\
      exists p,
        progressPercent xp level = Some p /\
        Qle p (inject_Z 100) /\
        (if Z.leb (nextLvlXp level) xp
         then Qeq p (inject_Z 100) else Qlt p (inject_Z 100)) /\
        (if Z.leb cur xp
         then Qle (inject_Z 0) p else Qlt p (inject_Z 0))
  end /\
  nextLvlXp 5 = 10000.
Proof.
  split; [|reflexivity].
  destruct (lookupThreshold levelThresholds level) as [cur|] eqn:Hcur.
  2: { unfold progressPercent. now rewrite Hcur. }
  pose proof (divisor_positive _ _ Hcur) as Hpos.
  split; [exact Hpos|]. split.
  { apply lookupThreshold_table in Hcur.
    destruct Hcur as [[-> ->]|[[-> ->]|[[-> ->]|[[-> ->]|[-> ->]]]]];
      reflexivity. }
  unfold progressPercent. rewrite Hcur.
  destruct (Z.eqb_spec (nextLvlXp level - cur) 0) as [E|_]; [lia|].
  eexists. split; [reflexivity|].
  set (b := nextLvlXp level - cur) in *.
  set (r := Qmult (Qdiv (inject_Z (xp - cur)) (inject_Z b)) (inject_Z 100)).
  pose proof (percent_as_fraction (xp - cur) b Hpos) as Hr. fold r in Hr.
  destruct (percent_le (xp - cur) b 100 Hpos) as [Hle100 Hge100].
  destruct (percent_le (xp - cur) b 0 Hpos) as [Hle0 Hge0].
  rewrite <- Hr in Hle100, Hge100, Hle0, Hge0.
  split; [apply Q.le_min_l|]. split.
  - destruct (Z.leb_spec (nextLvlXp level) xp) as [Hup|Hup].
    + apply Q.min_l. apply Hge100. subst b. nia.
    + apply Q.min_lt_iff. right. apply Qnot_le_lt. intros H.
      apply Hge100 in H. subst b. nia.
  - destruct (Z.leb_spec cur xp) as [Hlo|Hlo].
    + apply Q.min_glb; [discriminate|]. apply Hge0. nia.
    + apply Q.min_lt_iff. right. apply Qnot_le_lt. intros H.
      apply Hge0 in H. nia.
Qed.

(* ================================================================== *)
(** * Timer callbacks *)
(* ================================================================== *)

Lemma tick_fireAll (w : World) :
  tick w =
  fireAll (dueAt (clock w + 1) (timers w))
    (mkWorld (state w) (saveTimeoutRef w) (notDueAt (clock w + 1) (timers w))
       (nextTimerId w) (clock w + 1) (firebase w) (writes w) (writeOk w)).
Proof. reflexivity. Qed.

(** A callback touches the state cell and the log, nothing else. *)
Lemma fire_frame (t : Timer) (w : World) :
  saveTimeoutRef (fire t w) = saveTimeoutRef w /\
  timers (fire t w) = timers w /\
  nextTimerId (fire t w) = nextTimerId w /\
  clock (fire t w) = clock w /\
  firebase (fire t w) = firebase w /\
  writeOk (fire t w) = writeOk w.
Proof.
  unfold fire, runDoSave, runRemoteSave, attemptWrite.
  destruct (callback t); cbn; try destruct (writeOk w _); cbn; auto 10.
Qed.

Lemma fire_writes (t : Timer) (w : World) :
  writes (fire t w) = writes w ++ attemptOf (callback t) w.
Proof.
  unfold fire, runDoSave, runRemoteSave, attemptWrite, attemptOf.
  destruct (callback t); cbn; try destruct (writeOk w _); cbn;
    rewrite ?app_nil_r; reflexivity.
Qed.

Lemma fire_dataToSave (t : Timer) (w : World) :
  dataToSave (state (fire t w)) = dataToSave (state w).
Proof.
  unfold fire, runDoSave, runRemoteSave, attemptWrite.
  destruct (callback t); cbn; try destruct (writeOk w _); reflexivity.
Qed.

Lemma fire_status_other (t : Timer) (w : World) :
  isSave t = false ->
  AppState.connectionStatus (state (fire t w))
    = AppState.connectionStatus (state w).
Proof.
  unfold isSave, fire. destruct (callback t); try discriminate; reflexivity.
Qed.

Lemma fire_status_save (t : Timer) (w : World) :
  isSave t = true ->
  AppState.connectionStatus (state (fire t w))
    = if writeOk w (length (writes w)) then connected
      else AppState.connectionStatus (state w).
Proof.
  unfold isSave, fire, runDoSave, runRemoteSave, attemptWrite.
  destruct (callback t); try discriminate; intros _; cbn;
    destruct (writeOk w _); reflexivity.
Qed.

Lemma attemptOf_other (t : Timer) (w : World) :
  isSave t = false -> attemptOf (callback t) w = [].
Proof. unfold isSave. destruct (callback t); try discriminate; reflexivity. Qed.

Lemma fireAll_snoc (l : list Timer) (t : Timer) (w : World) :
  fireAll (l ++ [t]) w = fire t (fireAll l w).
Proof. unfold fireAll. now rewrite foldl_app. Qed.

Lemma fireAll_frame (l : list Timer) (w : World) :
  saveTimeoutRef (fireAll l w) = saveTimeoutRef w /\
  timers (fireAll l w) = timers w /\
  nextTimerId (fireAll l w) = nextTimerId w /\
  clock (fireAll l w) = clock w /\
  firebase (fireAll l w) = firebase w /\
  writeOk (fireAll l w) = writeOk w.
Proof.
  induction l as [|t l IH] using rev_ind; [cbn; auto 10|].
  rewrite fireAll_snoc.
  destruct (fire_frame t (fireAll l w)) as (-> & -> & -> & -> & -> & ->).
  exact IH.
Qed.

Lemma fireAll_dataToSave (l : list Timer) (w : World) :
  dataToSave (state (fireAll l w)) = dataToSave (state w).
Proof.
  induction l as [|t l IH] using rev_ind; [reflexivity|].
  now rewrite fireAll_snoc, fire_dataToSave.
Qed.

(** Callbacks that are not saves leave the log and the status alone. *)
Lemma fireAll_no_save (l : list Timer) (w : World) :
  Forall (fun t => isSave t = false) l ->
  writes (fireAll l w) = writes w /\
  AppState.connectionStatus (state (fireAll l w))
    = AppState.connectionStatus (state w).
Proof.
  induction l as [|t l IH] using rev_ind; [now cbn|].
  intros H. apply Forall_app in H as [Hl Ht].
  apply Forall_inv in Ht.
  rewrite fireAll_snoc, fire_writes, fire_status_other by exact Ht.
  rewrite attemptOf_other, app_nil_r by exact Ht. auto.
Qed.

(* ================================================================== *)
(** * The clock *)
(* ================================================================== *)

Lemma tick_frame (w : World) :
  saveTimeoutRef (tick w) = saveTimeoutRef w /\
  timers (tick w) = notDueAt (clock w + 1) (timers w) /\
  nextTimerId (tick w) = nextTimerId w /\
  clock (tick w) = clock w + 1 /\
  firebase (tick w) = firebase w /\
  writeOk (tick w) = writeOk w.
Proof.
  rewrite tick_fireAll.
  exact (fireAll_frame (dueAt (clock w + 1) (timers w)) _).
Qed.

Lemma tick_dataToSave (w : World) :
  dataToSave (state (tick w)) = dataToSave (state w).
Proof.
  rewrite tick_fireAll.
  exact (fireAll_dataToSave (dueAt (clock w + 1) (timers w)) _).
Qed.

Lemma advance_frame (n : nat) (w : World) :
  saveTimeoutRef (advance n w) = saveTimeoutRef w /\
  nextTimerId (advance n w) = nextTimerId w /\
  clock (advance n w) = clock w + Z.of_nat n /\
  firebase (advance n w) = firebase w /\
  writeOk (advance n w) = writeOk w /\
  dataToSave (state (advance n w)) = dataToSave (state w).
Proof.
  revert w. induction n as [|n IH]; intros w.
  - cbn. rewrite Z.add_0_r. auto 10.
  - cbn [advance].
    destruct (IH (tick w)) as (-> & -> & -> & -> & -> & ->).
    destruct (tick_frame w) as (-> & _ & -> & -> & -> & ->).
    rewrite tick_dataToSave. repeat split; lia.
Qed.

Lemma noSave_filter (P : Timer -> Prop) `{forall t, Decision (P t)}
    (l : list Timer) :
  Forall (fun t => isSave t = false) l ->
  Forall (fun t => isSave t = false) (filter P l).
Proof.
  rewrite !Forall_forall. intros Hl t Ht.
  apply list_elem_of_filter in Ht as [_ Ht]. now apply Hl.
Qed.

Lemma noSave_dueAt (now : Z) (l : list Timer) :
  Forall (fun t => isSave t = false) l ->
  Forall (fun t => isSave t = false) (dueAt now l).
Proof. apply noSave_filter. Qed.

Lemma noSave_notDueAt (now : Z) (l : list Timer) :
  Forall (fun t => isSave t = false) l ->
  Forall (fun t => isSave t = false) (notDueAt now l).
Proof. apply noSave_filter. Qed.

(** While no save is pending, time writes nothing. *)
Lemma advance_no_save (n : nat) (w : World) :
  Forall (fun t => isSave t = false) (timers w) ->
  writes (advance n w) = writes w /\
  AppState.connectionStatus (state (advance n w))
    = AppState.connectionStatus (state w) /\
  Forall (fun t => isSave t = false) (timers (advance n w)).
Proof.
  revert w. induction n as [|n IH]; intros w Hw; [now cbn|].
  cbn [advance].
  assert (Forall (fun t => isSave t = false) (timers (tick w))) as Ht.
  { destruct (tick_frame w) as (_ & -> & _). now apply noSave_notDueAt. }
  destruct (IH _ Ht) as (-> & -> & Hf). split; [|split; [|exact Hf]].
  - rewrite tick_fireAll.
    exact (proj1 (fireAll_no_save _ _ (noSave_dueAt _ _ Hw))).
  - rewrite tick_fireAll.
    exact (proj2 (fireAll_no_save _ _ (noSave_dueAt _ _ Hw))).
Qed.

(* ================================================================== *)
(** * One pending save *)
(* ================================================================== *)

Lemma attemptOf_ext (cb : Callback) (w w' : World) :
  writeOk w' = writeOk w -> writes w' = writes w ->
  attemptOf cb w' = attemptOf cb w.
Proof. intros H1 H2. unfold attemptOf. now rewrite H1, H2. Qed.

Lemma attemptOf_saveCallback (fb : bool) (d : Persisted.t) (w : World) :
  attemptOf (saveCallback fb d) w
  = [mkWrite (if fb then Firestore else LocalStorage) d
       (writeOk w (length (writes w)))].
Proof. destruct fb; reflexivity. Qed.

Lemma isSave_saveCallback (i : nat) (at_ : Z) (fb : bool) (d : Persisted.t) :
  isSave (mkTimer i at_ (saveCallback fb d)) = true.
Proof. destruct fb; reflexivity. Qed.

Lemma dueAt_snoc (now : Z) (l : list Timer) (t : Timer) :
  dueAt now (l ++ [t])
  = dueAt now l ++ (if decide (due t <= now) then [t] else []).
Proof.
  unfold dueAt. rewrite filter_app. reflexivity.
Qed.

Lemma notDueAt_snoc (now : Z) (l : list Timer) (t : Timer) :
  notDueAt now (l ++ [t])
  = notDueAt now l ++ (if decide (due t <= now) then [] else [t]).
Proof.
  unfold notDueAt. rewrite filter_app. f_equal.
  rewrite filter_cons, filter_nil.
  destruct (decide (due t <= now)), (decide (~ due t <= now)); tauto.
Qed.

(** The save is the newest entry of the queue and is not due yet. *)
Lemma tick_waiting (w : World) (others : list Timer) (t : Timer) :
  timers w = others ++ [t] ->
  Forall (fun t => isSave t = false) others ->
  clock w + 1 < due t ->
  timers (tick w) = notDueAt (clock w + 1) others ++ [t] /\
  writes (tick w) = writes w /\
  AppState.connectionStatus (state (tick w))
    = AppState.connectionStatus (state w).
Proof.
  intros Ht Ho Hd. split.
  - destruct (tick_frame w) as (_ & -> & _).
    rewrite Ht, notDueAt_snoc, decide_False by lia. reflexivity.
  - rewrite tick_fireAll, Ht, dueAt_snoc, decide_False, app_nil_r by lia.
    exact (fireAll_no_save _ _ (noSave_dueAt _ _ Ho)).
Qed.

(** The save is due: it runs after the other entries that are due. *)
Lemma tick_fires (w : World) (others : list Timer) (t : Timer) :
  timers w = others ++ [t] ->
  Forall (fun t => isSave t = false) others ->
  isSave t = true ->
  due t <= clock w + 1 ->
  Forall (fun t => isSave t = false) (timers (tick w)) /\
  writes (tick w) = writes w ++ attemptOf (callback t) w /\
  AppState.connectionStatus (state (tick w))
    = if writeOk w (length (writes w)) then connected
      else AppState.connectionStatus (state w).
Proof.
  intros Ht Ho Hs Hd. split.
  - destruct (tick_frame w) as (_ & -> & _).
    rewrite Ht, notDueAt_snoc, decide_True, app_nil_r by lia.
    now apply noSave_notDueAt.
  - rewrite tick_fireAll, Ht, dueAt_snoc, decide_True by lia.
    rewrite fireAll_snoc, fire_writes, fire_status_save by exact Hs.
    match goal with
    | |- context [fireAll ?l ?w0] =>
        destruct (fireAll_no_save l w0 (noSave_dueAt _ _ Ho)) as [Hw Hst];
        destruct (fireAll_frame l w0) as (_ & _ & _ & _ & _ & Hok)
    end.
    rewrite (attemptOf_ext _ w _ Hok Hw), Hw, Hst, Hok. split; reflexivity.
Qed.

Lemma advance_waiting (n : nat) (w : World) (others : list Timer) (t : Timer) :
  timers w = others ++ [t] ->
  Forall (fun t => isSave t = false) others ->
  clock w + Z.of_nat n < due t ->
  exists others',
    timers (advance n w) = others' ++ [t] /\
    Forall (fun t => isSave t = false) others' /\
    writes (advance n w) = writes w /\
    AppState.connectionStatus (state (advance n w))
      = AppState.connectionStatus (state w).
Proof.
  revert w others. induction n as [|n IH]; intros w others Ht Ho Hd.
  - exists others. now cbn.
  - cbn [advance].
    destruct (tick_waiting w others t Ht Ho) as (Ht' & Hw & Hst); [lia|].
    destruct (IH (tick w) _ Ht' (noSave_notDueAt _ _ Ho))
      as (others' & ? & ? & Hw' & Hst').
    { destruct (tick_frame w) as (_ & _ & _ & -> & _). lia. }
    exists others'. rewrite Hw', Hst', Hw, Hst. auto.
Qed.

Lemma advance_fires (n : nat) (w : World) (others : list Timer) (t : Timer) :
  timers w = others ++ [t] ->
  Forall (fun t => isSave t = false) others ->
  isSave t = true ->
  clock w < due t ->
  due t <= clock w + Z.of_nat n ->
  writes (advance n w) = writes w ++ attemptOf (callback t) w /\
  AppState.connectionStatus (state (advance n w))
    = (if writeOk w (length (writes w)) then connected
       else AppState.connectionStatus (state w)) /\
  Forall (fun t => isSave t = false) (timers (advance n w)).
Proof.
  revert w others. induction n as [|n IH]; intros w others Ht Ho Hs Hlt Hd.
  - lia.
  - cbn [advance]. destruct (decide (due t <= clock w + 1)) as [Hnow|Hlater].
    + destruct (tick_fires w others t Ht Ho Hs Hnow) as (Hf & Hw & Hst).
      destruct (advance_no_save n (tick w) Hf) as (-> & -> & Hf').
      rewrite Hw, Hst. auto.
    + destruct (tick_waiting w others t Ht Ho) as (Ht' & Hw & Hst); [lia|].
      destruct (tick_frame w) as (_ & _ & _ & Hc & _ & Hok).
      destruct (IH (tick w) _ Ht' (noSave_notDueAt _ _ Ho) Hs)
        as (Hw' & Hst' & Hf'); [lia | lia |].
      rewrite Hw', Hst', Hw, Hst, Hok.
      rewrite (attemptOf_ext _ w _ Hok Hw). auto.
Qed.

(** Clearing the pending save leaves no save in the queue. *)
Lemma clearPendingSave_no_save (w : World) :
  wf w ->
  Forall (fun t => isSave t = false) (timers (clearPendingSave w)).
Proof.
  intros Hwf. unfold clearPendingSave.
  destruct (saveTimeoutRef w) as [i|] eqn:Hr; cbn; apply Forall_forall;
    intros t Ht.
  - apply list_elem_of_filter in Ht as [Hne Ht].
    destruct (isSave t) eqn:Hs; [|reflexivity].
    specialize (Hwf t Ht Hs). congruence.
  - destruct (isSave t) eqn:Hs; [|reflexivity].
    specialize (Hwf t Ht Hs). congruence.
Qed.

Lemma wf_of_queue (w : World) (others : list Timer) (t : Timer) :
  timers w = others ++ [t] ->
  Forall (fun t => isSave t = false) others ->
  saveTimeoutRef w = Some (tid t) ->
  wf w.
Proof.
  intros Ht Ho Hr t' Hin Hs. rewrite Ht in Hin.
  apply elem_of_app in Hin as [Hin|Hin].
  - rewrite Forall_forall in Ho. specialize (Ho t' Hin). congruence.
  - apply list_elem_of_singleton in Hin. now subst.
Qed.

(** What the debounced branch of [saveToCloud] leaves behind. *)
Lemma saveToCloud_debounced_queue st o w :
  wf w ->
  let t := mkTimer (nextTimerId w) (clock w + 1000)
             (saveCallback (firebase w)
                (dataToSave (match o with
                             | Some p => spreadState st p
                             | None => st
                             end))) in
  let w' := saveToCloud st false o w in
  exists others,
    timers w' = others ++ [t] /\
    Forall (fun t => isSave t = false) others /\
    saveTimeoutRef w' = Some (tid t) /\
    writes w' = writes w /\
    clock w' = clock w /\
    firebase w' = firebase w /\
    writeOk w' = writeOk w.
Proof.
  intros Hwf t w'. exists (timers (clearPendingSave w)).
  split; [|split; [now apply clearPendingSave_no_save|]].
  - subst t w'. unfold saveToCloud, clearPendingSave. cbn.
    destruct (firebase w), (saveTimeoutRef w); reflexivity.
  - subst t w'. unfold saveToCloud, clearPendingSave. cbn.
    destruct (firebase w) eqn:Hfb, (saveTimeoutRef w) eqn:Hr; cbn;
      rewrite ?Hfb; repeat split; reflexivity.
Qed.

(* ================================================================== *)
(** * Debounced saves *)
(* ================================================================== *)

Lemma debouncedMutation_queue (M : AppState.t -> AppState.t) (w : World) :
  wf w ->
  let t := mkTimer (nextTimerId w) (clock w + 1000)
             (saveCallback (firebase w) (dataToSave (M (state w)))) in
  let w' := debouncedMutation M w in
  exists others,
    timers w' = others ++ [t] /\
    Forall (fun t => isSave t = false) others /\
    saveTimeoutRef w' = Some (tid t) /\
    writes w' = writes w /\
    clock w' = clock w /\
    firebase w' = firebase w /\
    writeOk w' = writeOk w.
Proof.
  intros Hwf. unfold debouncedMutation.
  pose proof (saveToCloud_debounced_queue (state w)
                (Some (asPartial (M (state w))))
                (setState (fun _ => M (state w)) w) Hwf) as H.
  cbv beta iota zeta in H. rewrite spreadState_asPartial in H. exact H.
Qed.

Lemma debouncedMutation_status (M : AppState.t -> AppState.t) (w : World) :
  AppState.connectionStatus (state (debouncedMutation M w)) = saving.
Proof.
  unfold debouncedMutation. now rewrite saveToCloud_debounced_state.
Qed.

(** A debounced save on its own: nothing is written before its delay
    has passed, and one attempt is made once it has. *)
Lemma debounced_save_fires (M : AppState.t -> AppState.t) (w : World) (n : nat) :
  wf w ->
  (1000 <= n)%nat ->
  let w' := advance n (debouncedMutation M w) in
  writes w'
  = writes w ++ [mkWrite (if firebase w then Firestore else LocalStorage)
                   (dataToSave (M (state w)))
                   (writeOk w (length (writes w)))] /\
  AppState.connectionStatus (state w')
  = if writeOk w (length (writes w)) then connected else saving.
Proof.
  intros Hwf Hn w'. subst w'.
  destruct (debouncedMutation_queue M w Hwf)
    as (others & Ht & Ho & Hr & Hw & Hc & Hfb & Hok).
  destruct (advance_fires n _ _ _ Ht Ho (isSave_saveCallback _ _ _ _))
    as (Hw' & Hst & _); cbn [due]; [lia | lia |].
  rewrite Hw', Hst. cbn [callback].
  rewrite attemptOf_saveCallback, debouncedMutation_status, Hw, Hok.
  split; reflexivity.
Qed.

(** A debounced call of [saveToCloud] on its own: one attempt once the
    delay has passed, with the projection of [currentState]. *)
Lemma saveToCloud_debounced_fires st o (w : World) (n : nat) :
  wf w ->
  (1000 <= n)%nat ->
  writes (advance n (saveToCloud st false o w))
  = writes w ++ [mkWrite (if firebase w then Firestore else LocalStorage)
                   (dataToSave (match o with
                                | Some p => spreadState st p
                                | None => st
                                end))
                   (writeOk w (length (writes w)))].
Proof.
  intros Hwf Hn.
  destruct (saveToCloud_debounced_queue st o w Hwf)
    as (others & Ht & Ho & Hr & Hw & Hc & Hfb & Hok).
  destruct (advance_fires n _ _ _ Ht Ho (isSave_saveCallback _ _ _ _))
    as (Hw' & _ & _); cbn [due]; [lia | lia |].
  rewrite Hw'. cbn [callback].
  now rewrite attemptOf_saveCallback, Hw, Hok.
Qed.

(** C3. Two mutations are made; each handler stores its new state with
    [setState] and calls [saveToCloud] with [force] false, the second
    call less than 1000 ms after the first, and [currentState] of the
    second call (the render closure's state with [stateOverride]
    spread over it) is the state after the second mutation. Then no
    write is attempted until 1000 ms have passed since the second call;
    from then on the log has gained exactly one attempt, whose payload
    is [{xp, level, streak, actions, weeklyGoal}] of the state after
    the second mutation, which is also what the memory holds. *)
Theorem debounce_coalesces
    (w : World) (st1 st2 afterM1 afterM2 : AppState.t)
    (o1 o2 : option PartialState.t) (n1 n2 : nat) :
  wf w ->
  (n1 < 1000)%nat ->
  (1000 <= n2)%nat ->
  match o2 with
  | Some p => spreadState st2 p
  | None => st2
  end = afterM2 ->
  let w1 := advance n1 (saveToCloud st1 false o1
                          (setState (fun _ => afterM1) w)) in
  let w2 := saveToCloud st2 false o2 (setState (fun _ => afterM2) w1) in
  state w2 = set_connectionStatus saving afterM2 /\
  writes w2 = writes w /\
  writes (advance 999 w2) = writes w /\
  writes (advance n2 w2)
  = writes w ++ [mkWrite (if firebase w then Firestore else LocalStorage)
                   (Persisted.mk (AppState.xp afterM2) (AppState.level afterM2)
                      (AppState.streak afterM2) (AppState.actions afterM2)
                      (AppState.weeklyGoal afterM2))
                   (writeOk w (length (writes w)))].
Proof.
  intros Hwf Hn1 Hn2 Hcur w1 w2.
  destruct (saveToCloud_debounced_queue st1 o1
              (setState (fun _ => afterM1) w) Hwf)
    as (others & Ht & Ho & Hr & Hw & Hc & Hfb & Hok).
  destruct (advance_waiting n1 _ _ _ Ht Ho)
    as (others1 & Ht1 & Ho1 & Hw1 & _); [cbn [due]; lia|].
  destruct (advance_frame n1 (saveToCloud st1 false o1
                                (setState (fun _ => afterM1) w)))
    as (Hr1 & _ & Hc1 & Hfb1 & Hok1 & _).
  fold w1 in Ht1, Hw1, Hr1, Hc1, Hfb1, Hok1.
  assert (wf w1) as Hwf1.
  { apply (wf_of_queue w1 _ _ Ht1 Ho1). now rewrite Hr1. }
  assert (wf (setState (fun _ => afterM2) w1)) as Hwf1' by exact Hwf1.
  destruct (saveToCloud_debounced_queue st2 o2 _ Hwf1')
    as (others2 & Ht2 & Ho2 & Hr2 & Hw2 & Hc2 & Hfb2 & Hok2).
  fold w2 in Ht2, Hr2, Hw2, Hc2, Hfb2, Hok2.
  cbn [setState writes firebase writeOk] in Hw, Hfb, Hok, Hw2, Hfb2, Hok2.
  assert (writes w2 = writes w) as Hsame by congruence.
  split; [apply saveToCloud_debounced_state|].
  split; [exact Hsame|]. split.
  - destruct (advance_waiting 999 _ _ _ Ht2 Ho2) as (_ & _ & _ & -> & _);
      [cbn [due]; lia | exact Hsame].
  - unfold w2. rewrite (saveToCloud_debounced_fires st2 o2 _ n2 Hwf1' Hn2).
    rewrite Hcur. cbn [setState writes firebase writeOk].
    unfold dataToSave. now rewrite Hw1, Hw, Hfb1, Hfb, Hok1, Hok.
Qed.

Lemma debounce_coalesces_witness :
  let w := initialWorld true (fun _ => true) in
  let afterM1 := set_xp 100 defaultState in
  let afterM2 := set_xp 250 (set_connectionStatus saving afterM1) in
  let w1 := advance 400 (saveToCloud defaultState false (Some (asPartial afterM1))
                           (setState (fun _ => afterM1) w)) in
  let w2 := saveToCloud (state w1) false (Some (asPartial afterM2))
              (setState (fun _ => afterM2) w1) in
  wf w /\ (400 < 1000)%nat /\ (1000 <= 1000)%nat /\
  spreadState (state w1) (asPartial afterM2) = afterM2 /\
  writes (advance 1000 w2)
  = [mkWrite Firestore (Persisted.mk 250 1 0 [] defaultGoal) true].
Proof.
  assert (wf (initialWorld true (fun _ => true))) as Hwf.
  { intros t Ht. cbn in Ht. inversion Ht. }
  split; [exact Hwf|]. split; [lia|]. split; [lia|].
  split; [apply spreadState_asPartial|].
  exact (proj2 (proj2 (proj2
    (debounce_coalesces (initialWorld true (fun _ => true))
       defaultState
       (state (advance 400
                 (saveToCloud defaultState false
                    (Some (asPartial (set_xp 100 defaultState)))
                    (setState (fun _ => set_xp 100 defaultState)
                       (initialWorld true (fun _ => true))))))
       (set_xp 100 defaultState)
       (set_xp 250 (set_connectionStatus saving (set_xp 100 defaultState)))
       (Some (asPartial (set_xp 100 defaultState)))
       (Some (asPartial
                (set_xp 250 (set_connectionStatus saving (set_xp 100 defaultState)))))
       400 1000 Hwf ltac:(lia) ltac:(lia)
       (spreadState_asPartial _ _))))).
Defined.

(* ================================================================== *)
(** * Write outcomes and the connection status *)
(* ================================================================== *)

(** A forced save changes nothing of the state cell but the status:
    whatever the outcome of the write, nothing is rolled back. *)
Lemma forced_save_keeps_state st o w :
  exists c, state (saveToCloud st true o w) = set_connectionStatus c (state w).
Proof. eexists. apply saveToCloud_forced_state. Qed.

(** A write that succeeds leaves the status [connected], whatever the
    status was before, [error] included. *)
Lemma successful_write_connects st o w (M : AppState.t -> AppState.t) (n : nat) :
  writeOk w (length (writes w)) = true ->
  AppState.connectionStatus (state (saveToCloud st true o w)) = connected /\
  (wf w -> (1000 <= n)%nat ->
   AppState.connectionStatus (state (advance n (debouncedMutation M w)))
   = connected).
Proof.
  intros Hok. split.
  - rewrite saveToCloud_forced_state, Hok. reflexivity.
  - intros Hwf Hn.
    destruct (debounced_save_fires M w n Hwf Hn) as [_ ->]. now rewrite Hok.
Qed.

(** A snapshot that arrives leaves the status [connected] as well. *)
Lemma snapshot_connects (w : World) (remoteData : PartialState.t) :
  AppState.connectionStatus (state (onSnapshot (Some remoteData) w)) = connected.
Proof. reflexivity. Qed.

(** C4, on the code. When the write fails, the status becomes [error]
    on one path only, the forced Firestore write, which runs under the
    [try] of [saveToCloud]. A debounced write (either backend) runs in
    a timer callback, and a forced local write runs before the [try]:
    when they fail the status stays [saving]. On every path the failed
    attempt is logged and the persisted fields in memory stay as the
    mutation left them. *)
Theorem failed_write_status
    (w : World) (M : AppState.t -> AppState.t) (n : nat) :
  wf w ->
  writeOk w (length (writes w)) = false ->
  (1000 <= n)%nat ->
  (let w' := advance n (debouncedMutation M w) in
   writes w'
   = writes w ++ [mkWrite (if firebase w then Firestore else LocalStorage)
                    (dataToSave (M (state w))) false] /\
   AppState.connectionStatus (state w') = saving /\
   dataToSave (state w') = dataToSave (M (state w))) /\
  (let w' := forcedMutation M w in
   AppState.connectionStatus (state w')
   = (if firebase w then error else saving) /\
   dataToSave (state w') = dataToSave (M (state w))).
Proof.
  intros Hwf Hok Hn. split.
  - cbv zeta.
    destruct (debounced_save_fires M w n Hwf Hn) as [-> ->].
    rewrite Hok. repeat split.
    destruct (advance_frame n (debouncedMutation M w))
      as (_ & _ & _ & _ & _ & ->).
    unfold debouncedMutation. now rewrite saveToCloud_debounced_state.
  - cbv zeta. unfold forcedMutation.
    rewrite saveToCloud_forced_state. cbn [setState state firebase writeOk writes].
    rewrite Hok. split; reflexivity.
Qed.

Lemma failed_write_status_witness :
  let w := initialWorld true (fun _ => false) in
  let w' := advance 1000 (debouncedMutation (set_xp 100) w) in
  wf w /\
  writeOk w (length (writes w)) = false /\
  (1000 <= 1000)%nat /\
  writes w' = [mkWrite Firestore (dataToSave (set_xp 100 defaultState)) false] /\
  AppState.connectionStatus (state w') = saving.
Proof.
  assert (wf (initialWorld true (fun _ => false))) as Hwf.
  { intros t Ht. cbn in Ht. inversion Ht. }
  split; [exact Hwf|]. split; [reflexivity|]. split; [lia|].
  destruct (failed_write_status (initialWorld true (fun _ => false))
              (set_xp 100) 1000 Hwf eq_refl ltac:(lia))
    as [(Hw & Hs & _) _].
  split; [exact Hw | exact Hs].
Defined.

(** The same on the handlers as they are: without a Firebase
    configuration, [saveGoal] leaves the status at [saving] when
    [localStorage.setItem] throws; with one, a rejected [setDoc] leaves
    it at [error]. *)
Example saveGoal_local_failure :
  AppState.connectionStatus
    (state (step evSaveGoal (initialWorld false (fun _ => false)))) = saving /\
  AppState.connectionStatus
    (state (step evSaveGoal (initialWorld true (fun _ => false)))) = error.
Proof. split; vm_compute; reflexivity. Qed.

(** [error] is left by the next write that succeeds. *)
Example error_then_success :
  let ok := fun k => match k with O => false | _ => true end in
  let w1 := step evSaveGoal (initialWorld true ok) in
  let w2 := step evSaveGoal w1 in
  AppState.connectionStatus (state w1) = error /\
  AppState.connectionStatus (state w2) = connected.
Proof. split; vm_compute; reflexivity. Qed.

(* ================================================================== *)
(** * The ledger is append-only at the front *)
(* ================================================================== *)

Lemma dataToSave_handlePin st num w :
  dataToSave (state (handlePin st num w)) = dataToSave (state w).
Proof.
  unfold handlePin.
  destruct (Nat.ltb _ 4); [|reflexivity].
  destruct (Nat.eqb _ 4); [|reflexivity].
  destruct (String.eqb _ _); reflexivity.
Qed.

(** What each event does to [state.actions]. *)
Lemma step_actions (e : Event) (w : World) :
  AppState.actions (state (step e w))
  = match e with
    | evSubmitAction now today =>
        newEntry (state w) now today :: AppState.actions (state w)
    | _ => AppState.actions (state w)
    end.
Proof.
  destruct e; cbn [step]; try reflexivity.
  - change (AppState.actions (state (handlePin (state w) num w)))
      with (Persisted.actions (dataToSave (state (handlePin (state w) num w)))).
    now rewrite dataToSave_handlePin.
  - now rewrite state_saveGoal.
  - now rewrite state_submitAction.
  - change (AppState.actions (state (tick w)))
      with (Persisted.actions (dataToSave (state (tick w)))).
    now rewrite tick_dataToSave.
Qed.

(** C7, as stated, fails: a snapshot is an operation that deletes
    entries. An action is recorded; the merge of a document whose
    [actions] is empty leaves no action in memory; so does the news
    that the document is missing once the write it triggers comes back
    as a snapshot. *)
Lemma snapshot_drops_recorded_action :
  let w1 := step (evSubmitAction 1700000000000 "2023-11-14")
              (initialWorld true (fun _ => true)) in
  let w2 := onSnapshot (Some staleDoc) w1 in
  let w3 := onSnapshot None w1 in
  let w4 := onSnapshot (Some (docOf (dataToSave defaultState))) w3 in
  length (AppState.actions (state w1)) = 1%nat /\
  AppState.actions (state w2) = [] /\
  ~ AppState.actions (state w1) `suffix_of` AppState.actions (state w2) /\
  map written (writes w3)
  = [dataToSave (state w1); dataToSave defaultState] /\
  AppState.actions (state w4) = [].
Proof.
  split; [vm_compute; reflexivity|]. split; [vm_compute; reflexivity|].
  split; [|split; vm_compute; reflexivity].
  intros [k Hk]. destruct k; vm_compute in Hk; discriminate.
Qed.

(** C7, amended. [submitAction] puts the new action at index 0 and the
    actions stored before behind it, unchanged and in their order;
    every handler and timer callback of the component either leaves
    the list as it is or puts one action in front of it; so after any
    sequence of them the list held before is still there, entry for
    entry, as the tail end of the list. The merge of a snapshot is the
    one operation that can drop or reorder entries: it replaces the
    list by the list the document carries (and keeps it when the
    document carries none); the snapshot that echoes the component's
    own write of its state leaves the list as it is. *)
Theorem actions_prepend_only
    (w : World) (now : Z) (today : string) (e : Event) (es : list Event)
    (remoteData : PartialState.t) :
  AppState.actions (state (step (evSubmitAction now today) w)) !! 0%nat
    = Some (newEntry (state w) now today) /\
  drop 1 (AppState.actions (state (step (evSubmitAction now today) w)))
    = AppState.actions (state w) /\
  (AppState.actions (state (step e w)) = AppState.actions (state w) \/
   exists a,
     AppState.actions (state (step e w)) = a :: AppState.actions (state w)) /\
  AppState.actions (state w) `suffix_of` AppState.actions (state (run es w)) /\
  AppState.actions (state (onSnapshot (Some remoteData) w))
    = default (AppState.actions (state w)) (PartialState.actions remoteData) /\
  AppState.actions (state (onSnapshot (Some (docOf (dataToSave (state w)))) w))
    = AppState.actions (state w).
Proof.
  split; [|split; [|split; [|split; [|split]]]].
  - now rewrite step_actions.
  - now rewrite step_actions.
  - rewrite step_actions. destruct e; eauto.
  - revert w. induction es as [|e' es IH]; intros w; [reflexivity|].
    cbn [run foldl]. etransitivity; [|apply IH].
    rewrite step_actions. destruct e'; try reflexivity.
    apply suffix_cons_r. reflexivity.
  - cbn. destruct (PartialState.actions remoteData); reflexivity.
  - reflexivity.
Qed.

(* ================================================================== *)
(** * [wf] holds in every world the component reaches *)
(* ================================================================== *)

Lemma wf_initialWorld (fb : bool) (ok : nat -> bool) : wf (initialWorld fb ok).
Proof. intros t Ht. cbn in Ht. inversion Ht. Qed.

Lemma wf_setState (f : AppState.t -> AppState.t) (w : World) :
  wf w -> wf (setState f w).
Proof. intros H. exact H. Qed.

(** Dropping entries from the queue keeps [wf]. *)
Lemma wf_fewer_timers (w w' : World) :
  (forall t, t ∈ timers w' -> t ∈ timers w) ->
  saveTimeoutRef w' = saveTimeoutRef w ->
  wf w -> wf w'.
Proof. intros Hsub Hr Hwf t Ht Hs. rewrite Hr. auto. Qed.

(** So does scheduling a callback that is not a save. *)
Lemma wf_setTimeout_other (cb : Callback) (delay : Z) (w : World) :
  attemptOf cb w = [] ->
  wf w -> wf (fst (setTimeout cb delay w)).
Proof.
  intros Hcb Hwf t Ht Hs. cbn in Ht |- *.
  apply elem_of_app in Ht as [Ht|Ht]; [now apply Hwf|].
  apply list_elem_of_singleton in Ht. subst t.
  unfold isSave in Hs. cbn in Hs. destruct cb; discriminate.
Qed.

Lemma wf_tick (w : World) : wf w -> wf (tick w).
Proof.
  apply wf_fewer_timers.
  - destruct (tick_frame w) as (_ & -> & _). intros t Ht.
    now apply list_elem_of_filter in Ht as [_ Ht].
  - now destruct (tick_frame w) as (-> & _).
Qed.

Lemma saveToCloud_forced_frame st o w :
  saveTimeoutRef (saveToCloud st true o w) = saveTimeoutRef w /\
  timers (saveToCloud st true o w) = timers (clearPendingSave w).
Proof.
  unfold saveToCloud, clearPendingSave, runDoSave, attemptWrite. cbn.
  destruct (firebase w) eqn:Hfb, (saveTimeoutRef w) eqn:Hr; cbn;
    destruct (writeOk w _); cbn; rewrite ?Hr; split; reflexivity.
Qed.

Lemma wf_saveToCloud st force o w : wf w -> wf (saveToCloud st force o w).
Proof.
  intros Hwf. destruct force.
  - destruct (saveToCloud_forced_frame st o w) as [Hr Ht].
    revert Hwf. apply wf_fewer_timers; [|exact Hr].
    rewrite Ht. unfold clearPendingSave.
    destruct (saveTimeoutRef w); cbn; [|tauto].
    intros t Hin. now apply list_elem_of_filter in Hin as [_ Hin].
  - destruct (saveToCloud_debounced_queue st o w Hwf)
      as (others & Ht & Ho & Hr & _).
    exact (wf_of_queue _ _ _ Ht Ho Hr).
Qed.

Lemma wf_step (e : Event) (w : World) : wf w -> wf (step e w).
Proof.
  intros Hwf. destruct e; cbn [step]; try exact Hwf.
  - unfold handlePin.
    destruct (Nat.ltb _ 4); [|exact Hwf].
    destruct (Nat.eqb _ 4); [|exact Hwf].
    destruct (String.eqb _ _); [exact Hwf|].
    now apply wf_setTimeout_other.
  - unfold saveGoal. now apply wf_saveToCloud.
  - unfold submitAction. apply wf_setTimeout_other; [reflexivity|].
    now apply wf_saveToCloud.
  - now apply wf_tick.
Qed.

Lemma wf_onSnapshot (docSnap : option PartialState.t) (w : World) :
  wf w -> wf (onSnapshot docSnap w).
Proof.
  intros Hwf. destruct docSnap; [exact Hwf|]. now apply wf_saveToCloud.
Qed.

Lemma wf_run (es : list Event) (w : World) : wf w -> wf (run es w).
Proof.
  revert w. induction es as [|e es IH]; intros w Hwf; [exact Hwf|].
  cbn [run foldl]. apply IH. now apply wf_step.
Qed.

(* ================================================================== *)
(** * Callbacks that restore a field after a delay *)
(* ================================================================== *)

Section TimedCallback.

Variable cb : Callback.
Variable P : AppState.t -> Prop.

(** Running [cb] makes [P] hold, and no callback undoes it. *)
Hypothesis establishes :
  forall t w, callback t = cb -> P (state (fire t w)).
Hypothesis keeps :
  forall t w, P (state w) -> P (state (fire t w)).

Lemma fireAll_keeps (l : list Timer) (w : World) :
  P (state w) -> P (state (fireAll l w)).
Proof.
  induction l as [|t l IH] using rev_ind; [trivial|].
  intros H. rewrite fireAll_snoc. apply keeps. now apply IH.
Qed.

Lemma fireAll_establishes (l : list Timer) (t : Timer) (w : World) :
  t ∈ l -> callback t = cb -> P (state (fireAll l w)).
Proof.
  induction l as [|x l IH] using rev_ind; intros Hin Hcb.
  - inversion Hin.
  - rewrite fireAll_snoc. apply elem_of_app in Hin as [Hin|Hin].
    + apply keeps. now apply IH.
    + apply list_elem_of_singleton in Hin. subst x. now apply establishes.
Qed.

Lemma advance_keeps (n : nat) (w : World) :
  P (state w) -> P (state (advance n w)).
Proof.
  revert w. induction n as [|n IH]; intros w H; [exact H|].
  cbn [advance]. apply IH. rewrite tick_fireAll. now apply fireAll_keeps.
Qed.

(** A pending [cb] has run once its due time has passed. *)
Lemma advance_establishes (n : nat) (w : World) (t : Timer) :
  t ∈ timers w ->
  callback t = cb ->
  clock w < due t ->
  due t <= clock w + Z.of_nat n ->
  P (state (advance n w)).
Proof.
  revert w. induction n as [|n IH]; intros w Hin Hcb Hlt Hle; [lia|].
  cbn [advance]. destruct (decide (due t <= clock w + 1)) as [Hnow|Hlater].
  - apply advance_keeps. rewrite tick_fireAll.
    apply (fireAll_establishes _ t); [|exact Hcb].
    apply list_elem_of_filter. split; [exact Hnow | exact Hin].
  - destruct (tick_frame w) as (_ & Ht & _ & Hc & _).
    apply IH; rewrite ?Ht, ?Hc; try lia; [|exact Hcb].
    apply list_elem_of_filter. split; [exact Hlater | exact Hin].
Qed.

End TimedCallback.

(* ================================================================== *)
(** * The PIN pad *)
(* ================================================================== *)

Lemma length_append (a b : string) :
  String.length (String.append a b) = (String.length a + String.length b)%nat.
Proof.
  induction a as [|c a IH]; [reflexivity|].
  change (S (String.length (String.append a b))
          = S (String.length a + String.length b)%nat).
  now rewrite IH.
Qed.

Lemma handlePin_effect (st : AppState.t) (num : string) (w : World) :
  st = state w ->
  let p := AppState.pinInput st in
  let w' := handlePin st num w in
  AppState.currentView (state w')
  = (if Nat.ltb (String.length p) 4 && String.eqb (String.append p num) "1234"
     then mentor else AppState.currentView (state w)) /\
  AppState.pinInput (state w')
  = (if Nat.ltb (String.length p) 4
     then (if String.eqb (String.append p num) "1234" then ""
           else String.append p num)
     else p).
Proof.
  intros ->. cbv zeta. unfold handlePin.
  destruct (Nat.ltb _ 4); [|split; reflexivity].
  destruct (String.eqb_spec (String.append (AppState.pinInput (state w)) num)
              "1234") as [E|_].
  - rewrite E. split; reflexivity.
  - destruct (Nat.eqb _ 4); split; reflexivity.
Qed.

(** X1. [handlePin] opens the mentor view exactly when the buffer has
    room and the buffer followed by the new key reads 1234; otherwise
    the view stays. It never touches the persisted fields and never
    writes. *)
Theorem handlePin_opens_on_code (w : World) (num : string) :
  let p := AppState.pinInput (state w) in
  let w' := step (evHandlePin num) w in
  AppState.currentView (state w')
  = (if Nat.ltb (String.length p) 4 && String.eqb (String.append p num) "1234"
     then mentor else AppState.currentView (state w)) /\
  AppState.pinInput (state w')
  = (if Nat.ltb (String.length p) 4
     then (if String.eqb (String.append p num) "1234" then ""
           else String.append p num)
     else p) /\
  dataToSave (state w') = dataToSave (state w) /\
  writes w' = writes w.
Proof.
  cbn [step].
  destruct (handlePin_effect (state w) num w eq_refl) as [H1 H2].
  split; [exact H1|]. split; [exact H2|].
  split; [apply dataToSave_handlePin|].
  unfold handlePin.
  destruct (Nat.ltb _ 4); [|reflexivity].
  destruct (Nat.eqb _ 4); [|reflexivity].
  destruct (String.eqb _ _); reflexivity.
Qed.

Lemma fire_pinInput (t : Timer) (w : World) :
  AppState.pinInput (state (fire t w)) = AppState.pinInput (state w) \/
  AppState.pinInput (state (fire t w)) = "".
Proof.
  unfold fire, runDoSave, runRemoteSave, attemptWrite.
  destruct (callback t); cbn; try destruct (writeOk w _); auto.
Qed.

Lemma fireAll_pinInput (l : list Timer) (w : World) :
  AppState.pinInput (state (fireAll l w)) = AppState.pinInput (state w) \/
  AppState.pinInput (state (fireAll l w)) = "".
Proof.
  induction l as [|t l IH] using rev_ind; [now left|].
  rewrite fireAll_snoc.
  destruct (fire_pinInput t (fireAll l w)) as [->| ->]; auto.
Qed.

Lemma step_pinInput_bound (e : Event) (w : World) :
  keypadEvent e ->
  (String.length (AppState.pinInput (state w)) <= 4)%nat ->
  (String.length (AppState.pinInput (state (step e w))) <= 4)%nat.
Proof.
  intros He Hw. destruct e; cbn [step]; try exact Hw; try (cbn; lia).
  - destruct (handlePin_effect (state w) num w eq_refl) as [_ Hp].
    rewrite Hp.
    destruct (Nat.ltb_spec (String.length (AppState.pinInput (state w))) 4);
      [|exact Hw].
    destruct (String.eqb _ _); [cbn; lia|].
    rewrite length_append. cbn in He. lia.
  - now rewrite state_saveGoal.
  - now rewrite state_submitAction.
  - rewrite tick_fireAll.
    match goal with
    | |- context [fireAll ?l ?w0] =>
        destruct (fireAll_pinInput l w0) as [->| ->]; [exact Hw | cbn; lia]
    end.
Qed.

(** X2. As long as each key adds one character, the PIN buffer never
    holds more than four characters, whatever the user does and however
    much time passes. *)
Theorem pinInput_at_most_four (es : list Event) (w : World) :
  Forall keypadEvent es ->
  (String.length (AppState.pinInput (state w)) <= 4)%nat ->
  (String.length (AppState.pinInput (state (run es w))) <= 4)%nat.
Proof.
  revert w. induction es as [|e es IH]; intros w Hes Hw; [exact Hw|].
  cbn [run foldl]. apply Forall_cons in Hes as [He Hes].
  apply IH; [exact Hes|]. now apply step_pinInput_bound.
Qed.

Lemma pinInput_at_most_four_witness :
  let es := [evHandlePin "1"; evHandlePin "9"; evHandlePin "9";
             evHandlePin "9"; evHandlePin "2"; evTick] in
  let w := initialWorld true (fun _ => true) in
  Forall keypadEvent es /\
  (String.length (AppState.pinInput (state w)) <= 4)%nat /\
  (String.length (AppState.pinInput (state (run es w))) <= 4)%nat.
Proof.
  assert (Forall keypadEvent
            [evHandlePin "1"; evHandlePin "9"; evHandlePin "9";
             evHandlePin "9"; evHandlePin "2"; evTick]) as Hes.
  { repeat constructor. }
  split; [exact Hes|]. split; [cbn; lia|].
  apply (pinInput_at_most_four _ _ Hes). cbn; lia.
Defined.

(** X3. A fourth key that completes a wrong code raises the error
    flag and leaves the view and the four characters in place; while
    they are there the keypad does nothing; 500 ms later the buffer is
    empty and the flag is down. *)
Theorem wrong_code_resets (w : World) (num : string) (n : nat) :
  let p := AppState.pinInput (state w) in
  let w1 := step (evHandlePin num) w in
  (String.length p < 4)%nat ->
  String.length (String.append p num) = 4%nat ->
  String.append p num <> "1234" ->
  (500 <= n)%nat ->
  AppState.pinError (state w1) = true /\
  AppState.pinInput (state w1) = String.append p num /\
  AppState.currentView (state w1) = AppState.currentView (state w) /\
  (forall num', step (evHandlePin num') w1 = w1) /\
  AppState.pinInput (state (advance n w1)) = "" /\
  AppState.pinError (state (advance n w1)) = false.
Proof.
  intros p w1 Hlt Hlen Hne Hn.
  assert (w1 = fst (setTimeout pinReset 500
                      (setState (set_pinError true)
                         (setState (set_pinInput (String.append p num)) w))))
    as Hw1.
  { subst w1 p. cbn [step]. unfold handlePin.
    destruct (Nat.ltb_spec (String.length (AppState.pinInput (state w))) 4);
      [|lia].
    rewrite Hlen. cbn [Nat.eqb].
    destruct (String.eqb_spec (String.append (AppState.pinInput (state w)) num)
                "1234"); [contradiction | reflexivity]. }
  split; [now rewrite Hw1|]. split; [now rewrite Hw1|].
  split; [now rewrite Hw1|]. split.
  - intros num'. cbn [step]. unfold handlePin.
    replace (AppState.pinInput (state w1)) with (String.append p num)
      by now rewrite Hw1.
    rewrite Hlen. reflexivity.
  - set (t := mkTimer (nextTimerId w) (clock w + 500) pinReset).
    assert (AppState.pinInput (state (advance n w1)) = "" /\
            AppState.pinError (state (advance n w1)) = false) as H;
      [|exact H].
    apply (advance_establishes pinReset
             (fun s => AppState.pinInput s = "" /\ AppState.pinError s = false))
      with (t := t).
    + intros t0 w0 Hcb. unfold fire. rewrite Hcb. split; reflexivity.
    + intros t0 w0 [H1 H2]. unfold fire, runDoSave, runRemoteSave, attemptWrite.
      destruct (callback t0); cbn; try destruct (writeOk w0 _); cbn; auto.
    + rewrite Hw1. cbn. apply elem_of_app. right. apply list_elem_of_singleton.
      reflexivity.
    + reflexivity.
    + rewrite Hw1. cbn. lia.
    + rewrite Hw1. cbn. lia.
Qed.

Lemma wrong_code_resets_witness :
  let w := run [evHandlePin "1"; evHandlePin "2"; evHandlePin "3"]
             (initialWorld true (fun _ => true)) in
  let w1 := step (evHandlePin "5") w in
  AppState.pinInput (state w) = "123" /\
  AppState.pinError (state w1) = true /\
  AppState.pinInput (state (advance 500 w1)) = "" /\
  AppState.pinError (state (advance 500 w1)) = false.
Proof.
  split; [reflexivity|].
  destruct (wrong_code_resets
              (run [evHandlePin "1"; evHandlePin "2"; evHandlePin "3"]
                 (initialWorld true (fun _ => true)))
              "5" 500)
    as (H1 & _ & _ & _ & H2 & H3);
    [vm_compute; lia | reflexivity | vm_compute; discriminate | lia |].
  split; [exact H1|]. split; [exact H2 | exact H3].
Defined.

(* ================================================================== *)
(** * An editing session of the weekly goal *)
(* ================================================================== *)

(** A forced save makes one write attempt, at once. *)
Lemma saveToCloud_forced_writes st o w :
  writes (saveToCloud st true o w)
  = writes w ++ [mkWrite (backendOf w)
                   (dataToSave (match o with
                                | Some p => spreadState st p
                                | None => st
                                end))
                   (writeOk w (length (writes w)))].
Proof.
  unfold saveToCloud, clearPendingSave, runDoSave, attemptWrite, backendOf.
  cbn. destruct (firebase w) eqn:Hfb, (saveTimeoutRef w) eqn:Hr; cbn;
    destruct (writeOk w _); reflexivity.
Qed.

Lemma saveToCloud_frame st force o w :
  firebase (saveToCloud st force o w) = firebase w /\
  writeOk (saveToCloud st force o w) = writeOk w /\
  clock (saveToCloud st force o w) = clock w.
Proof.
  unfold saveToCloud, clearPendingSave, runDoSave, attemptWrite. cbn.
  destruct (firebase w) eqn:Hfb, (saveTimeoutRef w) eqn:Hr, force; cbn;
    try destruct (writeOk w _); cbn; rewrite ?Hfb; repeat split; reflexivity.
Qed.

Lemma dataToSave_fields (s s' : AppState.t) :
  dataToSave s = dataToSave s' ->
  AppState.xp s = AppState.xp s' /\
  AppState.level s = AppState.level s' /\
  AppState.streak s = AppState.streak s' /\
  AppState.actions s = AppState.actions s' /\
  AppState.weeklyGoal s = AppState.weeklyGoal s'.
Proof. unfold dataToSave. intros E. now injection E. Qed.

Lemma run_app (es1 es2 : list Event) (w : World) :
  run (es1 ++ es2) w = run es2 (run es1 w).
Proof. unfold run. apply foldl_app. Qed.

(** Field edits touch the draft and nothing else. *)
Lemma run_updateTempGoal (fs : list GoalField) (w : World) :
  let w' := run (map evUpdateTempGoal fs) w in
  AppState.tempGoal (state w')
  = foldl (fun d f => putGoalField f d) (AppState.tempGoal (state w)) fs /\
  AppState.weeklyGoal (state w') = AppState.weeklyGoal (state w) /\
  AppState.isEditingGoal (state w') = AppState.isEditingGoal (state w) /\
  writes w' = writes w /\
  timers w' = timers w.
Proof.
  revert w. induction fs as [|f fs IH]; intros w; [now cbn|].
  cbn [map run foldl]. destruct (IH (step (evUpdateTempGoal f) w))
    as (H1 & H2 & H3 & H4 & H5).
  unfold run in H1, H2, H3, H4, H5.
  rewrite H1, H2, H3, H4, H5. repeat split; reflexivity.
Qed.

Lemma putGoalField_copyGoal (f : GoalField) (g : WeeklyGoal.t) :
  putGoalField f (copyGoal g) = copyGoal (assignGoalField f g).
Proof. destruct f; reflexivity. Qed.

Lemma commit_copyGoal (g g' : WeeklyGoal.t) : commit g (copyGoal g') = g'.
Proof. destruct g'; reflexivity. Qed.

Lemma commit_edits (g g' : WeeklyGoal.t) (fs : list GoalField) :
  commit g (foldl (fun d f => putGoalField f d) (copyGoal g') fs)
  = foldl (fun h f => assignGoalField f h) g' fs.
Proof.
  revert g'. induction fs as [|f fs IH]; intros g'; cbn [foldl].
  - apply commit_copyGoal.
  - rewrite putGoalField_copyGoal. apply IH.
Qed.

(** X4. An editing session that is saved: opening the editor, editing
    fields any number of times and pressing save leaves as weekly goal
    the goal held before with the edits applied in order (the last
    value given to a field wins, untouched fields keep their value),
    closes the editor, and makes exactly one write attempt, whose
    payload carries that goal. *)
Theorem edit_session_commits (w : World) (fs : list GoalField) :
  AppState.isEditingGoal (state w) = false ->
  let g := AppState.weeklyGoal (state w) in
  let g' := foldl (fun h f => assignGoalField f h) g fs in
  let w' := run ([evToggleEditGoal] ++ map evUpdateTempGoal fs ++ [evSaveGoal]) w in
  AppState.weeklyGoal (state w') = g' /\
  AppState.isEditingGoal (state w') = false /\
  exists ok,
    writes w'
    = writes w ++ [mkWrite (backendOf w)
                     (Persisted.mk (AppState.xp (state w)) (AppState.level (state w))
                        (AppState.streak (state w)) (AppState.actions (state w)) g')
                     ok].
Proof.
  intros Hed g g' w'. subst w'. rewrite !run_app.
  set (w1 := run [evToggleEditGoal] w).
  assert (AppState.tempGoal (state w1) = copyGoal g /\
          dataToSave (state w1) = dataToSave (state w) /\
          writes w1 = writes w /\ firebase w1 = firebase w /\
          writeOk w1 = writeOk w) as (Ht1 & Hd1 & Hw1 & Hf1 & Hok1).
  { subst w1. cbn. rewrite Hed. repeat split; reflexivity. }
  destruct (run_updateTempGoal fs w1) as (Ht2 & Hg2 & _ & Hw2 & _).
  set (w2 := run (map evUpdateTempGoal fs) w1) in *.
  assert (dataToSave (state w2) = dataToSave (state w1) /\
          firebase w2 = firebase w1 /\ writeOk w2 = writeOk w1)
    as (Hd2 & Hf2 & Hok2).
  { subst w2. clearbody w1. clear. revert w1.
    induction fs as [|f fs IH]; intros w1; [now cbn|].
    cbn [map run foldl]. destruct (IH (step (evUpdateTempGoal f) w1))
      as (H1 & H2 & H3).
    unfold run in H1, H2, H3. rewrite H1, H2, H3. repeat split; reflexivity. }
  cbn [run foldl step].
  assert (commit (AppState.weeklyGoal (state w2)) (AppState.tempGoal (state w2))
          = g') as Hc.
  { rewrite Ht2, Ht1, Hg2. apply commit_edits. }
  rewrite state_saveGoal. split; [exact Hc|]. split; [reflexivity|].
  exists (writeOk w (length (writes w))).
  unfold saveGoal. rewrite saveToCloud_forced_writes, spreadState_asPartial.
  unfold backendOf. cbn [setState writes writeOk firebase].
  rewrite Hc, Hw2, Hw1, Hf2, Hf1, Hok2, Hok1.
  destruct (dataToSave_fields (state w2) (state w)) as (Hx & Hl & Hs & Ha & _);
    [congruence|].
  unfold dataToSave. cbn. now rewrite Hx, Hl, Hs, Ha.
Qed.

Lemma edit_session_commits_witness :
  let w := initialWorld true (fun _ => true) in
  let w' := run ([evToggleEditGoal]
                 ++ map evUpdateTempGoal [goalTitle "Oser"; goalTarget 3; goalTitle "Parler"]
                 ++ [evSaveGoal]) w in
  AppState.isEditingGoal (state w) = false /\
  AppState.weeklyGoal (state w')
  = WeeklyGoal.mk "Parler" (WeeklyGoal.description defaultGoal) "Dimanche" 0 3.
Proof.
  split; [reflexivity|].
  exact (proj1 (edit_session_commits (initialWorld true (fun _ => true))
                  [goalTitle "Oser"; goalTarget 3; goalTitle "Parler"] eq_refl)).
Defined.

(** X5. An editing session that is abandoned: opening the editor,
    editing fields and pressing the toggle again leaves the weekly
    goal as it was, empties the draft, closes the editor, and writes
    nothing. *)
Theorem edit_session_cancels (w : World) (fs : list GoalField) :
  AppState.isEditingGoal (state w) = false ->
  let w' := run ([evToggleEditGoal] ++ map evUpdateTempGoal fs
                 ++ [evToggleEditGoal]) w in
  AppState.weeklyGoal (state w') = AppState.weeklyGoal (state w) /\
  AppState.tempGoal (state w') = emptyGoal /\
  AppState.isEditingGoal (state w') = false /\
  writes w' = writes w /\
  timers w' = timers w.
Proof.
  intros Hed w'. subst w'. rewrite !run_app.
  set (w1 := run [evToggleEditGoal] w).
  destruct (run_updateTempGoal fs w1) as (_ & Hg2 & He2 & Hw2 & Ht2).
  set (w2 := run (map evUpdateTempGoal fs) w1) in *.
  assert (AppState.isEditingGoal (state w1) = true) as He1.
  { subst w1. cbn. now rewrite Hed. }
  cbn [run foldl step]. unfold toggleEditGoal. cbn.
  rewrite He2, He1, Hg2, Hw2, Ht2. repeat split; reflexivity.
Qed.

Lemma edit_session_cancels_witness :
  let w := initialWorld true (fun _ => true) in
  let w' := run ([evToggleEditGoal] ++ map evUpdateTempGoal [goalTitle "Oser"]
                 ++ [evToggleEditGoal]) w in
  AppState.isEditingGoal (state w) = false /\
  AppState.weeklyGoal (state w') = defaultGoal /\
  AppState.tempGoal (state w') = emptyGoal.
Proof.
  split; [reflexivity|].
  destruct (edit_session_cancels (initialWorld true (fun _ => true))
              [goalTitle "Oser"] eq_refl) as (H1 & H2 & _).
  split; [exact H1 | exact H2].
Defined.

(* ================================================================== *)
(** * Forced saves *)
(* ================================================================== *)

Lemma forcedMutation_writes (M : AppState.t -> AppState.t) (w : World) :
  writes (forcedMutation M w)
  = writes w ++ [mkWrite (backendOf w) (dataToSave (M (state w)))
                   (writeOk w (length (writes w)))].
Proof.
  unfold forcedMutation.
  now rewrite saveToCloud_forced_writes, spreadState_asPartial.
Qed.

Lemma forcedMutation_no_save (M : AppState.t -> AppState.t) (w : World) :
  wf w -> Forall (fun t => isSave t = false) (timers (forcedMutation M w)).
Proof.
  intros Hwf. unfold forcedMutation.
  destruct (saveToCloud_forced_frame (state w)
              (Some (asPartial (M (state w))))
              (setState (fun _ => M (state w)) w)) as [_ ->].
  now apply clearPendingSave_no_save, wf_setState.
Qed.

(** X6. A forced save cancels the debounced save that is pending: when
    a mutation saved through the debounced branch is followed, before
    its delay has passed, by a mutation saved with [force], the only
    write ever attempted is the forced one, with the state of the
    second mutation; the first payload is never written, however long
    one waits. *)
Theorem forced_save_cancels_pending
    (w : World) (M1 M2 : AppState.t -> AppState.t) (n1 n : nat) :
  wf w ->
  (n1 < 1000)%nat ->
  let w1 := advance n1 (debouncedMutation M1 w) in
  let w2 := forcedMutation M2 w1 in
  writes (advance n w2)
  = writes w ++ [mkWrite (backendOf w) (dataToSave (M2 (state w1)))
                   (writeOk w (length (writes w)))].
Proof.
  intros Hwf Hn1 w1 w2.
  destruct (debouncedMutation_queue M1 w Hwf)
    as (others & Ht & Ho & Hr & Hw & Hc & Hfb & Hok).
  destruct (advance_waiting n1 _ _ _ Ht Ho)
    as (others1 & Ht1 & Ho1 & Hw1 & _); [cbn [due]; lia|].
  destruct (advance_frame n1 (debouncedMutation M1 w))
    as (Hr1 & _ & _ & Hfb1 & Hok1 & _).
  fold w1 in Ht1, Hw1, Hr1, Hfb1, Hok1.
  assert (wf w1) as Hwf1.
  { apply (wf_of_queue w1 _ _ Ht1 Ho1). now rewrite Hr1. }
  destruct (advance_no_save n w2 (forcedMutation_no_save M2 w1 Hwf1))
    as (-> & _).
  unfold w2. rewrite forcedMutation_writes. unfold backendOf.
  now rewrite Hw1, Hw, Hfb1, Hfb, Hok1, Hok.
Qed.

Lemma forced_save_cancels_pending_witness :
  let w := initialWorld false (fun _ => true) in
  let w1 := advance 300 (debouncedMutation (set_xp 100) w) in
  let w2 := forcedMutation (set_xp 250) w1 in
  wf w /\ (300 < 1000)%nat /\
  writes (advance 5000 w2)
  = [mkWrite LocalStorage (dataToSave (set_xp 250 (state w1))) true].
Proof.
  split; [apply wf_initialWorld|]. split; [lia|].
  exact (forced_save_cancels_pending (initialWorld false (fun _ => true))
           (set_xp 100) (set_xp 250) 300 5000
           (wf_initialWorld false (fun _ => true)) ltac:(lia)).
Defined.

(* ================================================================== *)
(** * What the handlers write *)
(* ================================================================== *)

Lemma step_writes (e : Event) (w : World) :
  Forall (fun t => isSave t = false) (timers w) ->
  Forall (fun t => isSave t = false) (timers (step e w)) /\
  writes (step e w)
  = writes w ++ (if isSaveEvent e
                 then [mkWrite (backendOf w) (dataToSave (state (step e w)))
                         (writeOk w (length (writes w)))]
                 else []) /\
  firebase (step e w) = firebase w /\
  writeOk (step e w) = writeOk w.
Proof.
  intros Hno.
  assert (forall st o w0,
             Forall (fun t => isSave t = false) (timers w0) ->
             Forall (fun t => isSave t = false)
               (timers (saveToCloud st true o w0))) as Hforced.
  { intros st o w0 H0.
    destruct (saveToCloud_forced_frame st o w0) as [_ ->].
    unfold clearPendingSave. destruct (saveTimeoutRef w0); [|exact H0].
    now apply noSave_filter. }
  destruct e; cbn [step isSaveEvent]; rewrite ?app_nil_r;
    try (repeat split; (exact Hno || reflexivity)).
  - unfold handlePin.
    destruct (Nat.ltb _ 4); [|repeat split; (exact Hno || reflexivity)].
    destruct (Nat.eqb _ 4); [|repeat split; (exact Hno || reflexivity)].
    destruct (String.eqb _ _); [repeat split; (exact Hno || reflexivity)|].
    repeat split; try reflexivity. cbn.
    apply Forall_app. split; [exact Hno|]. now repeat constructor.
  - rewrite state_saveGoal. unfold saveGoal.
    split; [now apply Hforced|]. split.
    + now rewrite saveToCloud_forced_writes, spreadState_asPartial.
    + destruct (saveToCloud_frame (state w) true
                  (Some (asPartial
                     (set_isEditingGoal false
                        (set_weeklyGoal
                           (commit (AppState.weeklyGoal (state w))
                              (AppState.tempGoal (state w))) (state w)))))
                  (setState (fun _ =>
                     set_isEditingGoal false
                       (set_weeklyGoal
                          (commit (AppState.weeklyGoal (state w))
                             (AppState.tempGoal (state w))) (state w))) w))
        as (-> & -> & _).
      split; reflexivity.
  - rewrite state_submitAction. unfold submitAction.
    cbn [fst setTimeout timers writes firebase writeOk]. split.
    + apply Forall_app. split; [now apply Hforced | now repeat constructor].
    + split.
      * now rewrite saveToCloud_forced_writes, spreadState_asPartial.
      * destruct (saveToCloud_frame (state w) true
                    (Some (asPartial (recordAction (state w) now today)))
                    (setState (fun _ => recordAction (state w) now today) w))
          as (-> & -> & _).
        split; reflexivity.
  - destruct (advance_no_save 1 w Hno) as (Hw & _ & Hf).
    destruct (tick_frame w) as (_ & _ & _ & _ & -> & ->).
    cbn [advance] in Hw, Hf. rewrite Hw. repeat split; [exact Hf|reflexivity..].
Qed.

(** X7. The handlers never take the debounced branch. Starting without
    a pending save, no sequence of events ever leaves a save in the
    timer queue, and the number of write attempts made is the number of
    [saveGoal] and [submitAction] events; each of these makes its
    attempt at once, and the payload is the projection of the state
    the handler has just stored. *)
Theorem handlers_write_at_once (es : list Event) (e : Event) (w : World) :
  Forall (fun t => isSave t = false) (timers w) ->
  Forall (fun t => isSave t = false) (timers (run es w)) /\
  length (writes (run es w)) = (length (writes w) + countSaveEvents es)%nat /\
  writes (step e w)
  = writes w ++ (if isSaveEvent e
                 then [mkWrite (backendOf w) (dataToSave (state (step e w)))
                         (writeOk w (length (writes w)))]
                 else []).
Proof.
  intros Hno. split; [|split].
  - revert w Hno. induction es as [|e' es IH]; intros w Hno; [exact Hno|].
    cbn [run foldl]. apply IH. now apply step_writes.
  - revert w Hno. induction es as [|e' es IH]; intros w Hno; [cbn; lia|].
    cbn [run foldl countSaveEvents].
    destruct (step_writes e' w Hno) as (Hno' & Hw & _).
    unfold run in IH. rewrite (IH _ Hno'), Hw, length_app.
    destruct (isSaveEvent e'); cbn; lia.
  - now apply step_writes.
Qed.

Lemma handlers_write_at_once_witness :
  let w := initialWorld true (fun _ => true) in
  let es := [evUpdateNewAction (draftDiscomfort 8); evSubmitAction 5 "2024-05-01";
             evTick; evToggleEditGoal; evSaveGoal] in
  Forall (fun t => isSave t = false) (timers w) /\
  length (writes (run es w)) = 2%nat.
Proof.
  split; [constructor|].
  exact (proj1 (proj2
    (handlers_write_at_once
       [evUpdateNewAction (draftDiscomfort 8); evSubmitAction 5 "2024-05-01";
        evTick; evToggleEditGoal; evSaveGoal]
       evTick (initialWorld true (fun _ => true)) (Forall_nil_2 _)))).
Defined.

(* ================================================================== *)
(** * After a submission *)
(* ================================================================== *)

(** X8. [submitAction] raises the celebration flag, returns to the
    dashboard tab and resets the draft to its defaults (no title,
    discomfort 5, neutral); 2500 ms later the flag is down again,
    whatever else was pending. *)
Theorem submitAction_celebrates
    (w : World) (now : Z) (today : string) (n : nat) :
  (2500 <= n)%nat ->
  let w1 := step (evSubmitAction now today) w in
  AppState.showConfetti (state w1) = true /\
  AppState.activeTab (state w1) = dashboard /\
  AppState.newAction (state w1) = Draft.mk "" 5 "neutral" /\
  AppState.showConfetti (state (advance n w1)) = false.
Proof.
  intros Hn w1. subst w1. cbn [step]. rewrite state_submitAction.
  split; [reflexivity|]. split; [reflexivity|]. split; [reflexivity|].
  set (w0 := saveToCloud (state w) true
               (Some (asPartial (recordAction (state w) now today)))
               (setState (fun _ => recordAction (state w) now today) w)).
  apply (advance_establishes confettiOff
           (fun s => AppState.showConfetti s = false))
    with (t := mkTimer (nextTimerId w0) (clock w0 + 2500) confettiOff).
  - intros t0 w' Hcb. unfold fire. now rewrite Hcb.
  - intros t0 w' H. unfold fire, runDoSave, runRemoteSave, attemptWrite.
    destruct (callback t0); cbn; try destruct (writeOk w' _); cbn; auto.
  - unfold submitAction. fold w0. cbn. apply elem_of_app. right.
    now apply list_elem_of_singleton.
  - reflexivity.
  - unfold submitAction. fold w0. cbn. lia.
  - unfold submitAction. fold w0. cbn. lia.
Qed.

Lemma submitAction_celebrates_witness :
  let w1 := step (evSubmitAction 7 "2024-05-01")
              (initialWorld true (fun _ => true)) in
  (2500 <= 2500)%nat /\
  AppState.showConfetti (state w1) = true /\
  AppState.showConfetti (state (advance 2500 w1)) = false.
Proof.
  split; [lia|].
  destruct (submitAction_celebrates (initialWorld true (fun _ => true))
              7 "2024-05-01" 2500 ltac:(lia)) as (H1 & _ & _ & H2).
  split; [exact H1 | exact H2].
Defined.

(* ================================================================== *)
(** * Level titles *)
(* ================================================================== *)

(** X9. The title shown for a level computed by the level loop is one
    of the five named titles, chosen by the band the experience falls
    in; the fallback title is never shown for such a level, while it is
    shown for any level outside 1..5 (which only a snapshot can bring
    in). *)
Theorem getLevelTitle_of_levelFor (x lvl : Z) :
  getLevelTitle (levelFor x)
  = (if Z.ltb x 500 then "Novice"
     else if Z.ltb x 1000 then "Apprentie"
     else if Z.ltb x 2000 then "Aventurière"
     else if Z.ltb x 3500 then "Éclaireuse"
     else "Légende") /\
  getLevelTitle (levelFor x) <> "Héroïne" /\
  (Z.ltb lvl 1 || Z.ltb 5 lvl = true -> getLevelTitle lvl = "Héroïne").
Proof.
  assert (getLevelTitle (levelFor x)
          = (if Z.ltb x 500 then "Novice"
             else if Z.ltb x 1000 then "Apprentie"
             else if Z.ltb x 2000 then "Aventurière"
             else if Z.ltb x 3500 then "Éclaireuse"
             else "Légende")) as H.
  { rewrite levelFor_cases. leb_cases x;
      repeat match goal with
             | |- context [Z.ltb x ?a] => destruct (Z.ltb_spec0 x a)
             end; try lia; reflexivity. }
  split; [exact H|]. split.
  - rewrite H.
    repeat match goal with
           | |- context [Z.ltb x ?a] => destruct (Z.ltb_spec0 x a)
           end; discriminate.
  - intros Hout. apply orb_true_iff in Hout. rewrite !Z.ltb_lt in Hout.
    unfold getLevelTitle.
    repeat match goal with
           | |- context [Z.eqb lvl ?a] => destruct (Z.eqb_spec lvl a)
           end; try reflexivity; lia.
Qed.

Lemma getLevelTitle_of_levelFor_witness :
  (Z.ltb 6 1 || Z.ltb 5 6 = true) /\ getLevelTitle 6 = "Héroïne".
Proof.
  split; [reflexivity|].
  exact (proj2 (proj2 (getLevelTitle_of_levelFor 0 6)) eq_refl).
Defined.

(* ================================================================== *)
(** * The journal and the statistics *)
(* ================================================================== *)

(** X10. The dashboard journal never shows more than three actions;
    after a submission it shows the new action first, followed by the
    first two actions of the journal shown before. *)
Theorem journal_after_submit (w : World) (now : Z) (today : string) :
  let w' := step (evSubmitAction now today) w in
  (length (journal (state w)) <= 3)%nat /\
  journal (state w')
  = newEntry (state w) now today :: take 2 (journal (state w)).
Proof.
  cbv zeta. unfold journal. split.
  - rewrite length_take. lia.
  - rewrite step_actions, take_take. reflexivity.
Qed.

Lemma sum_discomfort_fold (l : list Action.t) (acc : Z) :
  fold_left (fun a curr => a + Action.discomfort curr) l acc
  = acc + fold_right Z.add 0 (map Action.discomfort l).
Proof.
  revert acc. induction l as [|a l IH]; intros acc; cbn; [lia|].
  rewrite IH. lia.
Qed.

Lemma sum_discomfort_bounds (l : list Action.t) (lo hi : Z) :
  Forall (fun a => lo <= Action.discomfort a <= hi) l ->
  lo * Z.of_nat (length l) <= fold_right Z.add 0 (map Action.discomfort l)
  /\ fold_right Z.add 0 (map Action.discomfort l) <= hi * Z.of_nat (length l).
Proof.
  induction 1 as [|a l Ha Hl IH]; [cbn; lia|].
  cbn [length map fold_right]. lia.
Qed.

(** X11. The average discomfort of the review tab is 0 for an empty
    ledger (the divisor is then 1, not 0); for a ledger that is not
    empty it lies between any two bounds that all the discomfort values
    respect, so between 1 and 10 for actions recorded from the
    slider. *)
Theorem averageDiscomfort_bounds (actions : list Action.t) (lo hi : Z) :
  actions <> [] ->
  Forall (fun a => lo <= Action.discomfort a <= hi) actions ->
  Qeq (averageDiscomfort []) (inject_Z 0) /\
  Qle (inject_Z lo) (averageDiscomfort actions) /\
  Qle (averageDiscomfort actions) (inject_Z hi).
Proof.
  intros Hne Hall. split; [reflexivity|].
  unfold averageDiscomfort. rewrite sum_discomfort_fold, Z.add_0_l.
  destruct (sum_discomfort_bounds actions lo hi Hall) as [Hlo Hhi].
  assert (0 < Z.of_nat (length actions)) as Hpos.
  { destruct actions; [contradiction | cbn [length]; lia]. }
  destruct (Z.eqb_spec (Z.of_nat (length actions)) 0) as [E|_]; [lia|].
  assert (Qlt 0 (inject_Z (Z.of_nat (length actions)))) as Hq.
  { change 0%Q with (inject_Z 0). now rewrite <- Zlt_Qlt. }
  split.
  - apply Qle_shift_div_l; [exact Hq|].
    rewrite <- inject_Z_mult, <- Zle_Qle. exact Hlo.
  - apply Qle_shift_div_r; [exact Hq|].
    rewrite <- inject_Z_mult, <- Zle_Qle. exact Hhi.
Qed.

Lemma averageDiscomfort_bounds_witness :
  let l := [Action.mk 2 "b" 8 "proud" "2024-05-02" 130;
            Action.mk 1 "a" 3 "neutral" "2024-05-01" 80] in
  l <> [] /\
  Forall (fun a => 1 <= Action.discomfort a <= 10) l /\
  Qle (inject_Z 1) (averageDiscomfort l) /\
  Qle (averageDiscomfort l) (inject_Z 10).
Proof.
  assert (Forall (fun a => 1 <= Action.discomfort a <= 10)
            [Action.mk 2 "b" 8 "proud" "2024-05-02" 130;
             Action.mk 1 "a" 3 "neutral" "2024-05-01" 80]) as Hall.
  { repeat constructor; cbn; lia. }
  split; [discriminate|]. split; [exact Hall|].
  assert ([Action.mk 2 "b" 8 "proud" "2024-05-02" 130;
           Action.mk 1 "a" 3 "neutral" "2024-05-01" 80] <> []) as Hne
    by discriminate.
  exact (proj2 (averageDiscomfort_bounds _ 1 10 Hne Hall)).
Defined.

(* ================================================================== *)
(** * The segments of the weekly mission *)
(* ================================================================== *)

Lemma segments_shape (p : Z) (n : nat) :
  map (fun i => Z.ltb (Z.of_nat i) p) (seq 0 n)
  = replicate (Nat.min (Z.to_nat p) n) true
    ++ replicate (n - Nat.min (Z.to_nat p) n) false.
Proof.
  induction n as [|n IH].
  - rewrite Nat.min_0_r. reflexivity.
  - rewrite seq_S, map_app, IH. cbn [map Nat.add].
    destruct (Z.ltb_spec (Z.of_nat n) p) as [Hlt|Hge].
    + replace (Nat.min (Z.to_nat p) n) with n by lia.
      replace (Nat.min (Z.to_nat p) (S n)) with (S n) by lia.
      rewrite !Nat.sub_diag, replicate_S_end. cbn [replicate].
      now rewrite !app_nil_r.
    + replace (Nat.min (Z.to_nat p) (S n)) with (Nat.min (Z.to_nat p) n) by lia.
      replace (S n - Nat.min (Z.to_nat p) n)%nat
        with (S (n - Nat.min (Z.to_nat p) n)) by lia.
      now rewrite replicate_S_end, app_assoc.
Qed.

(** X12. The weekly mission is drawn as [target] segments, the filled
    ones first; the number of filled segments is the smaller of
    [progress] and [target] (none when either is negative), so a
    progress beyond the target fills the bar and adds nothing to it. *)
Theorem goalSegments_shape (g : WeeklyGoal.t) :
  WeeklyGoal.target g <= 4294967295 ->
  let n := Z.to_nat (WeeklyGoal.target g) in
  let k := Z.to_nat (Z.min (WeeklyGoal.progress g) (WeeklyGoal.target g)) in
  goalSegments g = Some (replicate k true ++ replicate (n - k) false) /\
  (k <= n)%nat.
Proof.
  intros Ht n k. unfold goalSegments.
  destruct (Z.ltb_spec 4294967295 (WeeklyGoal.target g)) as [?|_]; [lia|].
  rewrite segments_shape. subst n k. rewrite Z2Nat.inj_min.
  split; [reflexivity | lia].
Qed.

Lemma goalSegments_shape_witness :
  let g := WeeklyGoal.mk "Oser" "Parler en public" "Dimanche" 5 3 in
  WeeklyGoal.target g <= 4294967295 /\
  goalSegments g = Some [true; true; true].
Proof.
  split; [cbn; lia|].
  exact (proj1 (goalSegments_shape
                  (WeeklyGoal.mk "Oser" "Parler en public" "Dimanche" 5 3)
                  ltac:(cbn; lia))).
Defined.

(* ================================================================== *)
(** * Saving and loading back *)
(* ================================================================== *)

Lemma step_save_writes (e : Event) (w : World) :
  isSaveEvent e = true ->
  writes (step e w)
  = writes w ++ [mkWrite (backendOf w) (dataToSave (state (step e w)))
                   (writeOk w (length (writes w)))].
Proof.
  destruct e; try discriminate; intros _; cbn [step].
  - rewrite state_saveGoal. unfold saveGoal.
    now rewrite saveToCloud_forced_writes, spreadState_asPartial.
  - rewrite state_submitAction. unfold submitAction.
    cbn [fst setTimeout writes].
    now rewrite saveToCloud_forced_writes, spreadState_asPartial.
Qed.


(* ================================================================== *)
(** * Experience, ledger and level stay in step *)
(* ================================================================== *)

Lemma step_xp_level (e : Event) (w : World) :
  AppState.xp (state (step e w))
  = match e with
    | evSubmitAction _ _ => AppState.xp (state w) + totalPoints (state w)
    | _ => AppState.xp (state w)
    end /\
  AppState.level (state (step e w))
  = match e with
    | evSubmitAction _ _ =>
        levelFor (AppState.xp (state w) + totalPoints (state w))
    | _ => AppState.level (state w)
    end.
Proof.
  destruct e; cbn [step]; try (split; reflexivity).
  - pose proof (dataToSave_handlePin (state w) num w) as E.
    apply dataToSave_fields in E as (-> & -> & _). split; reflexivity.
  - rewrite state_saveGoal. split; reflexivity.
  - rewrite state_submitAction. split; reflexivity.
  - pose proof (tick_dataToSave w) as E.
    apply dataToSave_fields in E as (-> & -> & _). split; reflexivity.
Qed.

(** X15. If the experience is the sum of the points of the recorded
    actions and the level is the level of that experience, they still
    are after any sequence of events of the component: only
    [submitAction] changes them, and it changes the three together. *)
Theorem ledger_stays_consistent (es : list Event) (w : World) :
  ledgerConsistent (state w) ->
  ledgerConsistent (state (run es w)).
Proof.
  revert w. induction es as [|e es IH]; intros w Hw; [exact Hw|].
  cbn [run foldl]. apply IH. clear IH. destruct Hw as [Hx Hl].
  unfold ledgerConsistent.
  destruct (step_xp_level e w) as [-> ->]. rewrite step_actions.
  destruct e; try (split; assumption).
  split; [|reflexivity]. cbn [map fold_right Action.xp newEntry]. lia.
Qed.

Lemma ledger_stays_consistent_witness :
  let w := initialWorld true (fun _ => true) in
  let es := [evUpdateNewAction (draftDiscomfort 9); evSubmitAction 5 "2024-05-01";
             evSubmitAction 6 "2024-05-01"] in
  ledgerConsistent (state w) /\ ledgerConsistent (state (run es w)).
Proof.
  assert (ledgerConsistent (state (initialWorld true (fun _ => true)))) as H.
  { split; reflexivity. }
  split; [exact H|]. now apply ledger_stays_consistent.
Defined.

(** X16. For a level computed from the experience, and an experience
    that is not negative, the progress bar is a number between 0 and
    100 percent. *)
Theorem progressPercent_in_range (x : Z) :
  0 <= x ->
  exists p,
    progressPercent x (levelFor x) = Some p /\
    Qle (inject_Z 0) p /\ Qle p (inject_Z 100).
Proof.
  intros Hx.
  assert (exists cur,
             lookupThreshold levelThresholds (levelFor x) = Some cur /\
             cur <= x) as (cur & Hcur & Hle).
  { rewrite levelFor_cases. leb_cases x; eexists; (split; [reflexivity|lia]). }
  pose proof (divisor_positive _ _ Hcur) as Hpos.
  unfold progressPercent. rewrite Hcur.
  destruct (Z.eqb_spec (nextLvlXp (levelFor x) - cur) 0) as [E|_]; [lia|].
  eexists. split; [reflexivity|]. split.
  - apply Q.min_glb; [discriminate|].
    apply Qmult_le_0_compat; [|discriminate].
    apply Qle_shift_div_l.
    + change 0%Q with (inject_Z 0). rewrite <- Zlt_Qlt. exact Hpos.
    + rewrite Qmult_0_l. change 0%Q with (inject_Z 0).
      rewrite <- Zle_Qle. lia.
  - apply Q.le_min_l.
Qed.

Lemma progressPercent_in_range_witness :
  0 <= 580 /\
  exists p, progressPercent 580 (levelFor 580) = Some p /\
            Qle (inject_Z 0) p /\ Qle p (inject_Z 100).
Proof.
  split; [lia|]. apply progressPercent_in_range. lia.
Defined.

(* ================================================================== *)
(** * What the handlers leave alone *)
(* ================================================================== *)

Lemma fire_currentView (t : Timer) (w : World) :
  AppState.currentView (state (fire t w)) = AppState.currentView (state w).
Proof.
  unfold fire, runDoSave, runRemoteSave, attemptWrite.
  destruct (callback t); cbn; try destruct (writeOk w _); reflexivity.
Qed.

Lemma fireAll_currentView (l : list Timer) (w : World) :
  AppState.currentView (state (fireAll l w)) = AppState.currentView (state w).
Proof.
  induction l as [|t l IH] using rev_ind; [reflexivity|].
  now rewrite fireAll_snoc, fire_currentView.
Qed.

(** X17. The mentor view opens on the code only. Among the inputs the
    views offer, the snapshots and the clock, the only one that takes
    the component into the mentor view is the key that completes the
    buffer to 1234. *)
Theorem mentor_view_needs_code (i : Input) (w : World) :
  offered i ->
  AppState.currentView (state w) <> mentor ->
  AppState.currentView (state (react i w)) = mentor ->
  exists num,
    i = fromUser (evHandlePin num) /\
    String.append (AppState.pinInput (state w)) num = "1234".
Proof.
  intros Hoff Hnot Hm. destruct i as [e|[doc|]|]; cbn [react] in Hm.
  - destruct e; cbn [step] in Hm; try (exfalso; apply Hnot; exact Hm).
    + exfalso. cbn in Hoff, Hm. congruence.
    + exists num. split; [reflexivity|].
      destruct (handlePin_effect (state w) num w eq_refl) as [Hv _].
      rewrite Hv in Hm.
      destruct (Nat.ltb _ 4); cbn [andb] in Hm; [|contradiction].
      destruct (String.eqb_spec
                  (String.append (AppState.pinInput (state w)) num) "1234");
        [assumption | contradiction].
    + exfalso. apply Hnot. now rewrite state_saveGoal in Hm.
    + exfalso. apply Hnot. now rewrite state_submitAction in Hm.
    + exfalso. cbn in Hm. discriminate.
    + exfalso. apply Hnot. rewrite tick_fireAll in Hm.
      now rewrite fireAll_currentView in Hm.
  - exfalso. apply Hnot. exact Hm.
  - exfalso. apply Hnot. cbn [onSnapshot] in Hm.
    now rewrite saveToCloud_forced_state in Hm.
  - exfalso. apply Hnot. exact Hm.
Qed.

Lemma mentor_view_needs_code_witness :
  let w := run [evSetView login; evHandlePin "1"; evHandlePin "2";
                evHandlePin "3"] (initialWorld true (fun _ => true)) in
  offered (fromUser (evHandlePin "4")) /\
  AppState.currentView (state w) <> mentor /\
  AppState.currentView (state (react (fromUser (evHandlePin "4")) w)) = mentor /\
  exists num,
    fromUser (evHandlePin "4") = fromUser (evHandlePin num) /\
    String.append (AppState.pinInput (state w)) num = "1234".
Proof.
  split; [exact I|]. split; [discriminate|]. split; [reflexivity|].
  apply mentor_view_needs_code; [exact I | discriminate | reflexivity].
Defined.

(** X18. Only [saveGoal] and [submitAction] change persisted data. Every
    other event (view and tab changes, the PIN pad, the editors of the
    drafts, logout, the clock) leaves experience, level, streak,
    actions and weekly goal as they are; [saveGoal] changes the weekly
    goal only; and no event at all changes the streak. *)
Theorem persisted_fields_frame (e : Event) (es : list Event) (w : World) :
  (if isSaveEvent e then True
   else dataToSave (state (step e w)) = dataToSave (state w)) /\
  dataToSave (set_weeklyGoal (AppState.weeklyGoal (state w))
                (state (step evSaveGoal w)))
  = dataToSave (state w) /\
  AppState.streak (state (run es w)) = AppState.streak (state w).
Proof.
  split; [|split].
  - destruct e; cbn [isSaveEvent step]; try exact I; try reflexivity.
    + apply dataToSave_handlePin.
    + apply tick_dataToSave.
  - cbn [step]. rewrite state_saveGoal. destruct (state w). reflexivity.
  - revert w. induction es as [|e' es IH]; intros w; [reflexivity|].
    cbn [run foldl]. unfold run in IH. rewrite IH.
    destruct e'; cbn [step]; try reflexivity.
    + pose proof (dataToSave_handlePin (state w) num w) as E.
      now apply dataToSave_fields in E as (_ & _ & -> & _).
    + now rewrite state_saveGoal.
    + now rewrite state_submitAction.
    + pose proof (tick_dataToSave w) as E.
      now apply dataToSave_fields in E as (_ & _ & -> & _).
Qed.
